(** * Waterline: normalization of filter values and of values to set

    A shallow embedding of

    - [lib/waterline/utils/query/private/normalize-vs-attribute.js]
      (the filter value normalizer, [normalizeVsAttribute]),
    - [lib/waterline/utils/query/private/normalize-value-to-set.js]
      (the write value normalizer, [normalizeValueToSet]),
    - [lib/waterline/methods/validate.js] (the public [validate] method),

    followed by the properties of the two normalizers.

    JavaScript exceptions are modelled by an error monad ([Result]); the
    libraries the two files [require] (util, rttc, anchor) and two sibling
    helpers (is-valid-attribute-name, normalize-pk-value) are interfaces
    (type classes) the normalizers are parameterized by.  A reference implementation of every interface is given
    as well, so that the normalizers can be run on concrete schemas. *)

From Stdlib Require Import String Ascii ZArith QArith Qcanon List Bool.
From stdpp Require Import base option list strings gmap fin_maps.

Open Scope string_scope.
Set Warnings "-register-all".

(* ===================================================================== *)
(** * JavaScript values                                                   *)
(* ===================================================================== *)

(** A JavaScript value, as far as the normalizers tell values apart.
    Numbers are rationals; [VFunction] stands for the values that have no
    JSON form (functions, streams, ...).  A dictionary keeps its keys in
    insertion order. *)
Inductive Value : Type :=
| VUndefined
| VNull
| VBoolean (b : bool)
| VNumber (q : Qc)
| VString (s : string)
| VArray (items : list Value)
| VDictionary (fields : list (string * Value))
| VFunction (fname : string).

(** [_.isUndefined], [_.isNull], and [value === ''] *)
Definition isUndefined (v : Value) : bool :=
  match v with VUndefined => true | _ => false end.

Definition isNull (v : Value) : bool :=
  match v with VNull => true | _ => false end.

Definition isEmptyString (v : Value) : bool :=
  match v with VString s => bool_decide (s = "") | _ => false end.

(** Truthiness of a property that holds a string or is not set:
    a string that is set and not empty is truthy, and is handed on. *)
Definition truthy (o : option string) : option string :=
  match o with
  | Some s => if decide (s = "") then None else Some s
  | None => None
  end.

Definition isTruthy (o : option string) : bool :=
  match truthy o with Some _ => true | None => false end.

(** [_.isString(x) && x !== ''] on such a property *)
Definition isNonEmptyString (o : option string) : bool := isTruthy o.

(** The double quote character, for the messages that contain one. *)
Definition dq : string := String (ascii_of_nat 34) EmptyString.

(* ===================================================================== *)
(** * Errors and the exception monad                                      *)
(* ===================================================================== *)

(** One entry of [ruleViolations], as anchor reports it. *)
Record RuleViolation : Type := mkRuleViolation {
  rule : string;
  rv_message : string
}.

(** A JavaScript [Error]: flaverr sets [code] (and [ruleViolations]) on it. *)
Record JsError : Type := mkJsError {
  errName : string;
  code : option string;
  message : string;
  ruleViolations : option (list RuleViolation)
}.

(** [new Error(msg)] *)
Definition new_Error (msg : string) : JsError :=
  {| errName := "Error"; code := None; message := msg; ruleViolations := None |}.

(** [flaverr('CODE', err)] *)
Definition flaverr (c : string) (err : JsError) : JsError :=
  {| errName := errName err; code := Some c; message := message err;
     ruleViolations := ruleViolations err |}.

(** [flaverr({code: 'CODE', ruleViolations: rvs}, err)] *)
Definition flaverr_with (c : string) (rvs : list RuleViolation) (err : JsError) : JsError :=
  {| errName := errName err; code := Some c; message := message err;
     ruleViolations := Some rvs |}.

(** The error a failed [assert(cond, msg)] throws (Node's assert module). *)
Definition AssertionError (msg : string) : JsError :=
  {| errName := "AssertionError"; code := Some "ERR_ASSERTION"; message := msg;
     ruleViolations := None |}.

(** [switch (e.code) { case 'CODE': ... }] *)
Definition has_code (c : string) (e : JsError) : bool :=
  bool_decide (code e = Some c).

(** A computation that returns a value or throws. *)
Inductive Result (A : Type) : Type :=
| Return (a : A)
| Throw (e : JsError).
Arguments Return {A} a.
Arguments Throw {A} e.

Definition bind {A B : Type} (c : Result A) (k : A -> Result B) : Result B :=
  match c with
  | Return a => k a
  | Throw e => Throw e
  end.

(** [try { body } catch (e) { handler }] *)
Definition try_catch {A : Type} (body : Result A) (handler : JsError -> Result A) : Result A :=
  match body with
  | Return a => Return a
  | Throw e => handler e
  end.

(** The body of a catch block of the form
    [switch (e.code) { case 'CODE': throw wrap(e); default: throw e; }] *)
Definition rethrow_code {A : Type} (c : string) (wrap : JsError -> JsError) (e : JsError)
  : Result A :=
  if has_code c e then Throw (wrap e) else Throw e.

(** [assert(cond, msg)] *)
Definition assert (cond : bool) (msg : string) : Result unit :=
  if cond then Return tt else Throw (AssertionError msg).

(** [if (cond) { throw err; }] *)
Definition throw_if (cond : bool) (err : JsError) : Result unit :=
  if cond then Throw err else Return tt.

(** The monad structure: stdpp's notations [x ← c; k] and [c;; k]. *)
#[global] Instance Result_ret : MRet Result := @Return.
#[global] Instance Result_bind : MBind Result := fun A B k c => bind c k.

(** The outcome of a call, for statements: the call threw an error with
    this code. *)
Definition fails_with {A : Type} (c : string) (r : Result A) : Prop :=
  exists e, r = Throw e /\ code e = Some c.

(* ===================================================================== *)
(** * Schemas                                                             *)
(* ===================================================================== *)

(** A [validations] dictionary: rule name and its configuration. *)
Definition Ruleset : Type := list (string * Value).

(** An attribute definition.  [type], [model] and [collection] are the
    three keys the normalizers look at to tell a miscellaneous attribute,
    a singular association and a plural association apart. *)
Record AttrDef : Type := mkAttrDef {
  type : option string;
  model : option string;
  collection : option string;
  required : bool;
  autoCreatedAt : bool;
  autoUpdatedAt : bool;
  validations : option Ruleset;
  defaultsTo : option Value
}.

(** A Waterline model.  [hasSchema] is whatever value the property holds:
    the normalizer compares it with [true] and with [false]. *)
Record WLModel : Type := mkWLModel {
  identity : string;
  hasSchema : Value;
  primaryKey : string;
  attributes : gmap string AttrDef
}.

(** The ORM instance: its models by identity. *)
Record ORM : Type := mkORM {
  collections : gmap string WLModel
}.

(* ===================================================================== *)
(** * The ontology helpers                                                *)
(* ===================================================================== *)

(** Modelled from the spec: [getModel] (ontology/get-model.js), whose code
    is not available.  Schema Lookup resolves a model identity to its compiled
    schema and fails with a not-registered error if it is unknown. *)
Definition getModel (modelIdentity : string) (orm : ORM) : Result WLModel :=
  match collections orm !! modelIdentity with
  | Some WLM => Return WLM
  | None =>
      Throw (flaverr "E_MODEL_NOT_REGISTERED"
        (new_Error ("The provided `modelIdentity` references a model (`" +:+ modelIdentity +:+
                    "`) which does not exist in the provided `orm`.")))
  end.

(** Modelled from the spec: [getAttribute] (ontology/get-attribute.js),
    whose code is not available.  Schema Lookup resolves a single attribute name to
    its definition and fails with a not-registered error if either the model
    or the attribute is unknown. *)
Definition getAttribute (attrName modelIdentity : string) (orm : ORM) : Result AttrDef :=
  WLM ← getModel modelIdentity orm;
  match attributes WLM !! attrName with
  | Some attrDef => Return attrDef
  | None =>
      Throw (flaverr "E_ATTR_NOT_REGISTERED"
        (new_Error ("No such attribute (`" +:+ attrName +:+ "`) exists in model (`" +:+
                    modelIdentity +:+ "`).")))
  end.

(** The type of the primary key attribute of the associated model, as both
    normalizers look it up:
    [getAttribute(getModel(identity, orm).primaryKey, identity, orm).type] *)
Definition associatedPkTypeOf (otherModelIdentity : string) (orm : ORM) : Result (option string) :=
  OtherWLModel ← getModel otherModelIdentity orm;
  pkAttrDef ← getAttribute (primaryKey OtherWLModel) otherModelIdentity orm;
  Return (type pkAttrDef).

(* ===================================================================== *)
(** * Module dependencies                                                 *)
(* ===================================================================== *)

(** What the normalizers use of Node: [util.inspect] (of any object),
    [e.stack], and the conversion to a string that [+] applies to a value. *)
Class Node : Type := {
  util_inspect : forall {A : Type}, A -> string;
  stack : JsError -> string;
  toString : Value -> string
}.

(** rttc: [rttc.validate(type, value)] returns the (loosely coerced) value
    or throws; [rttc.coerce(type)] with no value is the base value of the
    type.  The type is whatever the [type] key of the attribute holds. *)
Class Rttc : Type := {
  rttc_validate : option string -> Value -> Result Value;
  rttc_coerce : option string -> Value
}.

(** anchor: [anchor(value, ruleset)] returns the list of rule violations. *)
Class Anchor : Type := {
  anchor : Value -> Ruleset -> Result (list RuleViolation)
}.

(** is-valid-attribute-name.js: [isValidAttributeName(hypotheticalAttrName)] *)
Class AttrNames : Type := {
  isValidAttributeName : string -> bool
}.

(** normalize-pk-value.js: [normalizePkValue(pkValue, expectedPkType)] *)
Class PkValues : Type := {
  normalizePkValue : Value -> option string -> Result Value
}.

(** Modelled from the spec: the loop of [normalizePkValues]
    (normalize-pk-values.js), whose code is not available.  The items are
    normalized as primary-key values of a type, element by element, and the
    first invalid element fails the whole with its invalid-key error. *)
Fixpoint normalizeEachPkValue `{PkValues} (pkValues : list Value) (expectedPkType : option string)
  : Result (list Value) :=
  match pkValues with
  | [] => Return []
  | thisPkValue :: rest =>
      normalized ← normalizePkValue thisPkValue expectedPkType;
      others ← normalizeEachPkValue rest expectedPkType;
      Return (normalized :: others)
  end.

(** Modelled from the spec: [normalizePkValues] (normalize-pk-values.js),
    whose code is not available.  The Primary-Key Coercer normalizes an
    array of values as primary-key values of a type and fails on the first
    invalid element; the value is required to be an array, so one that is
    not is rejected with the invalid-key error as well. *)
Definition normalizePkValues `{PkValues} (pkValues : Value) (expectedPkType : option string)
  : Result Value :=
  match pkValues with
  | VArray items =>
      normalized ← normalizeEachPkValue items expectedPkType;
      Return (VArray normalized)
  | _ =>
      Throw (flaverr "E_INVALID_PK_VALUE"
        (new_Error "Expecting an array of primary key values."))
  end.

(* ===================================================================== *)
(** * normalizeVsAttribute()                                              *)
(* ===================================================================== *)

Section NormalizeVsAttribute.
Context `{Node} `{Rttc}.

(** The three E_VALUE_NOT_USABLE errors. *)
Definition notJsonCompatible (e : JsError) : JsError :=
  flaverr "E_VALUE_NOT_USABLE" (new_Error (
    "There is no such attribute declared by this model... which is fine, " +:+
    "because the model supports unrecognized attributes (`schema: false`).  " +:+
    "However, all filters/values for unrecognized attributes must be " +:+
    "JSON-compatible, and this one is not.  " +:+ message e)).

Definition notAssociatedPk (attrName otherModelIdentity : string) (e : JsError) : JsError :=
  flaverr "E_VALUE_NOT_USABLE" (new_Error (
    "The corresponding attribute (`" +:+ attrName +:+ "`) is a singular (" +:+ dq +:+
    "model" +:+ dq +:+ ") association, " +:+
    "but the provided value does not match the declared type of the primary key attribute " +:+
    "for the associated model (`" +:+ otherModelIdentity +:+ "`).  " +:+
    message e)).

Definition notDeclaredType (e : JsError) : JsError :=
  flaverr "E_VALUE_NOT_USABLE" (new_Error (
    "Does not match the declared data type of the corresponding attribute.  " +:+
    message e)).

(** Validate and normalize the provided value vs. a particular attribute.
    [attrName], [modelIdentity] and [orm] have the types the three leading
    assertions on them ask for, so only the assertion on [value] can fail. *)
Definition normalizeVsAttribute (value : Value) (attrName modelIdentity : string) (orm : ORM)
  : Result Value :=
  assert (negb (isUndefined value))
    ("This internal utility must always be called with a first argument (the value to normalize).  But instead, got: "
       +:+ util_inspect value);;
  (* Look up the primary Waterline model and attribute. *)
  WLM ← getModel modelIdentity orm;
  let attrDef := attributes WLM !! attrName in
  (* If this attribute exists, ensure that it is not a plural association. *)
  match attrDef with
   | Some def =>
       assert (negb (isTruthy (collection def)))
         "Should not call this internal utility on a plural association (i.e. `collection` attribute)."
   | None => Return tt
   end;;
  if isNull value then
    (* `null` is always allowed as a filter. *)
    Return value
  else
    match attrDef with
    | None =>
        (* for unrecognized attributes *)
        try_catch (rttc_validate (Some "json") value)
          (rethrow_code "E_INVALID" notJsonCompatible)
    | Some def =>
        match truthy (model def) with
        | Some otherModelIdentity =>
            (* for singular associations *)
            associatedPkType ← associatedPkTypeOf otherModelIdentity orm;
            try_catch (rttc_validate associatedPkType value)
              (rethrow_code "E_INVALID" (notAssociatedPk attrName otherModelIdentity))
        | None =>
            (* for primary key attributes or miscellaneous attributes *)
            assert (isNonEmptyString (type def))
              ("There is no way this attribute (`" +:+ attrName +:+
               "`) should have been allowed to be registered with neither a `type`, `model`, nor `collection`!  Here is the attr def: "
               +:+ util_inspect def);;
            try_catch (rttc_validate (type def) value)
              (rethrow_code "E_INVALID" notDeclaredType)
        end
    end.

End NormalizeVsAttribute.

(* ===================================================================== *)
(** * normalizeValueToSet()                                               *)
(* ===================================================================== *)

Section NormalizeValueToSet.
Context `{Node} `{Rttc} `{Anchor} `{AttrNames} `{PkValues}.

(** ** Check model and attribute *)

(** Look up the Waterline model. *)
Definition lookUpModel (modelIdentity : string) (orm : ORM) : Result WLModel :=
  try_catch (getModel modelIdentity orm)
    (rethrow_code "E_MODEL_NOT_REGISTERED"
       (fun e => new_Error ("Consistency violation: " +:+ message e))).

(** The attribute def that corresponds with this value, if there is one. *)
Definition lookUpAttrDef (supposedAttrName modelIdentity : string) (orm : ORM)
  : Result (option AttrDef) :=
  try_catch (attrDef ← getAttribute supposedAttrName modelIdentity orm;
             Return (Some attrDef))
    (fun e =>
       if has_code "E_ATTR_NOT_REGISTERED" e
       then Return None
       else Throw e).

Definition E_SHOULD_BE_IGNORED_unrecognized : JsError :=
  flaverr "E_SHOULD_BE_IGNORED" (new_Error (
    "This model declares itself `schema: true`, but this value does not match " +:+
    "any recognized attribute (thus it will be ignored).")).

Definition E_HIGHLY_IRREGULAR_name : JsError :=
  flaverr "E_HIGHLY_IRREGULAR" (new_Error "This is not a valid name for an attribute.").

(** Check attribute name, by the [hasSchema] flag of the model. *)
Definition checkAttributeName (WLM : WLModel) (correspondingAttrDef : option AttrDef)
  (supposedAttrName modelIdentity : string) : Result unit :=
  match hasSchema WLM with
  | VBoolean true =>
      throw_if (negb (bool_decide (is_Some correspondingAttrDef)))
        E_SHOULD_BE_IGNORED_unrecognized
  | VBoolean false =>
      throw_if (negb (isValidAttributeName supposedAttrName))
        E_HIGHLY_IRREGULAR_name
  | _ =>
      Throw (new_Error (
        "Consistency violation: Every instantiated Waterline model should always have the `hasSchema` flag " +:+
        "as either `true` or `false` (should have been automatically derived from the `schema` model setting " +:+
        "shortly after construction.  And `schema` should have been verified as existing by waterline-schema).  " +:+
        "But somehow, this model's (`" +:+ modelIdentity +:+ "`) `hasSchema` property is as follows: " +:+
        util_inspect (hasSchema WLM)))
  end.

(** ** Check value *)

Definition E_SHOULD_BE_IGNORED_undefined : JsError :=
  flaverr "E_SHOULD_BE_IGNORED" (new_Error (
    "This value is `undefined`.  Remember: in Sails/Waterline, we always treat keys with " +:+
    "`undefined` values as if they were never there in the first place.")).

(** *** For the primary key attribute *)
Definition setPrimaryKey (value : Value) (correspondingAttrDef : AttrDef) : Result Value :=
  try_catch (normalizePkValue value (type correspondingAttrDef))
    (rethrow_code "E_INVALID_PK_VALUE"
       (fun e => flaverr "E_HIGHLY_IRREGULAR" (new_Error (
          "Invalid primary key value.  " +:+ message e)))).

(** *** For plural associations *)
Definition E_HIGHLY_IRREGULAR_collection (value : Value) (supposedAttrName : string) : JsError :=
  flaverr "E_HIGHLY_IRREGULAR" (new_Error (
    "This kind of query does not allow values to be set for plural (`collection`) associations " +:+
    "(instead, you should use `replaceCollection()`).  But instead, for `" +:+ supposedAttrName +:+ "`, " +:+
    "got: " +:+ util_inspect value)).

Definition E_HIGHLY_IRREGULAR_ids (value : Value) (supposedAttrName : string) : JsError :=
  flaverr "E_HIGHLY_IRREGULAR" (new_Error (
    "If specifying the value for a plural (`collection`) association, you must do so by " +:+
    "providing an array of associated ids representing the associated records.  But instead, " +:+
    "for `" +:+ supposedAttrName +:+ "`, got: " +:+ util_inspect value)).

Definition setPluralAssociation (value : Value) (supposedAttrName : string)
  (otherModelIdentity : string) (orm : ORM) (allowCollectionAttrs : bool) : Result Value :=
  (* If properties are not allowed for plural associations, then throw. *)
  throw_if (negb allowCollectionAttrs)
    (E_HIGHLY_IRREGULAR_collection value supposedAttrName);;
  (* Ensure that this is an array of pk values of the associated model. *)
  try_catch (associatedPkType ← associatedPkTypeOf otherModelIdentity orm;
             normalizePkValues value associatedPkType)
    (rethrow_code "E_INVALID_PK_VALUE"
       (fun _ => E_HIGHLY_IRREGULAR_ids value supposedAttrName)).

(** *** For singular associations *)
Definition E_HIGHLY_IRREGULAR_null (supposedAttrName : string) : JsError :=
  flaverr "E_HIGHLY_IRREGULAR" (new_Error (
    "Cannot set `null` as the value for `" +:+ supposedAttrName +:+ "`.  `null` _can_ be " +:+
    "used as a value for some singular (" +:+ dq +:+ "model" +:+ dq +:+ ") associations, but only if they " +:+
    "are optional.  (This one is `required: true`.)")).

Definition setSingularAssociation (value : Value) (supposedAttrName : string)
  (correspondingAttrDef : AttrDef) (otherModelIdentity : string) (orm : ORM) : Result Value :=
  if isNull value then
    (* We allow `null` for singular associations UNLESS they are required. *)
    throw_if (required correspondingAttrDef)
      (E_HIGHLY_IRREGULAR_null supposedAttrName);;
    Return value
  else
    (* Otherwise, this must be a pk value of the associated model. *)
    try_catch (associatedPkType ← associatedPkTypeOf otherModelIdentity orm;
               normalizePkValue value associatedPkType)
      (rethrow_code "E_INVALID_PK_VALUE"
         (fun e => flaverr "E_HIGHLY_IRREGULAR" (new_Error (
            "Expecting an id representing the associated record, or `null` to indicate " +:+
            "there will be no associated record.  But the specified value is not a valid " +:+
            "`" +:+ supposedAttrName +:+ "`.  " +:+ message e)))).

(** *** For miscellaneous attributes *)

(** [_getBaseValuePhrase()] *)
Definition getBaseValuePhrase (correspondingAttrDef : AttrDef) : string :=
  match type correspondingAttrDef with
  | Some "string" => "`''` (empty string)"
  | Some "number" => "`0` (zero)"
  | _ => "`" +:+ toString (rttc_coerce (type correspondingAttrDef)) +:+ "`"
  end.

(** [_getExtraPhrase()] *)
Definition getExtraPhrase (supposedAttrName : string) (correspondingAttrDef : AttrDef) : string :=
  match defaultsTo correspondingAttrDef with
  | None =>
      "Also note: Since this attribute does not define a `defaultsTo`, " +:+
      "the base value will be used as an implicit default if `" +:+ supposedAttrName +:+ "` " +:+
      "is omitted when creating a record."
  | Some _ => ""
  end.

(** The error for [null] given for an optional attribute whose type does
    not allow it. *)
Definition E_INVALID_null (supposedAttrName : string) (correspondingAttrDef : AttrDef) : JsError :=
  flaverr "E_INVALID" (new_Error (
    "Specified value (`null`) is not a valid `" +:+ supposedAttrName +:+ "`.  " +:+
    "Even though this attribute is optional, it still does not allow `null` to " +:+
    "be explicitly set, because `null` is not valid vs. the expected " +:+
    "type: '" +:+ default "undefined" (type correspondingAttrDef) +:+ "'.  Instead, to indicate " +:+
    dq +:+ "voidness" +:+ dq +:+ ", " +:+
    "please set the value for this attribute to the base value for its type, " +:+
    getBaseValuePhrase correspondingAttrDef +:+
    ".  (Or, if you specifically need to save `null`, then change this " +:+
    "attribute to either `type: 'json'` or `type: ref`.)  " +:+
    getExtraPhrase supposedAttrName correspondingAttrDef)).

Definition E_HIGHLY_IRREGULAR_timestamp (supposedAttrName : string) : JsError :=
  flaverr "E_HIGHLY_IRREGULAR" (new_Error (
    "Cannot set the specified value for attribute `" +:+ supposedAttrName +:+ "`: '' (empty string).  " +:+
    "Depending on this attribute's type, it expects to be set to either a JSON timestamp (ISO 8601) " +:+
    "or JS timestamp (unix epoch ms).")).

Definition E_VIOLATES_RULES (ruleViolations : list RuleViolation) : JsError :=
  flaverr_with "E_VIOLATES_RULES" ruleViolations
    (new_Error "Internal: Violated one or more validation rules.").

(** [type !== 'json' && type !== 'ref'] *)
Definition isNeitherJsonNorRef (t : option string) : bool :=
  negb (bool_decide (t = Some "json")) && negb (bool_decide (t = Some "ref")).

Definition isProvidingNullForIncompatibleOptionalAttr (value : Value)
  (correspondingAttrDef : AttrDef) : bool :=
  isNull value &&
  isNeitherJsonNorRef (type correspondingAttrDef) &&
  negb (required correspondingAttrDef).

(** Check for rule violations, on the value rttc returned.  The assertion
    that [validations], if set, is a dictionary holds by the type of
    [Ruleset]. *)
Definition checkForRuleViolations (value : Value) (supposedAttrName : string)
  (correspondingAttrDef : AttrDef) : Result unit :=
  match validations correspondingAttrDef with
  | Some ruleset =>
      let doCheckForRuleViolations := negb (isNull value) in
      if doCheckForRuleViolations then
        ruleViolations ← try_catch (anchor value ruleset)
          (fun e => Throw (new_Error (
             "Consistency violation: Unexpected error occurred when attempting to apply " +:+
             "high-level validation rules from attribute `" +:+ supposedAttrName +:+ "`.  " +:+ stack e)));
        throw_if (bool_decide (0 < length ruleViolations)%nat)
          (E_VIOLATES_RULES ruleViolations)
      else Return tt
  | None => Return tt
  end.

Definition setMiscellaneous (value : Value) (supposedAttrName : string)
  (correspondingAttrDef : AttrDef) : Result Value :=
  assert (isNonEmptyString (type correspondingAttrDef))
    ("There is no way this attribute (`" +:+ supposedAttrName +:+
     "`) should have been allowed to be registered with neither a `type`, `model`, nor `collection`!  Here is the attr def: "
     +:+ util_inspect correspondingAttrDef);;
  (* An auto-*-at timestamp is never set to empty string. *)
  throw_if (isEmptyString value &&
            (autoCreatedAt correspondingAttrDef || autoUpdatedAt correspondingAttrDef))
    (E_HIGHLY_IRREGULAR_timestamp supposedAttrName);;
  (* `null` is a special case. *)
  throw_if (isProvidingNullForIncompatibleOptionalAttr value correspondingAttrDef)
    (E_INVALID_null supposedAttrName correspondingAttrDef);;
  (* Guarantee type safety. *)
  value' ← rttc_validate (type correspondingAttrDef) value;
  (* Check for rule violations. *)
  checkForRuleViolations value' supposedAttrName correspondingAttrDef;;
  Return value'.

(** ** The normalizer *)

(** Validate and normalize the provided [value] for the specified attribute. *)
Definition normalizeValueToSet (value : Value) (supposedAttrName modelIdentity : string)
  (orm : ORM) (allowCollectionAttrs : bool) : Result Value :=
  assert (negb (bool_decide (supposedAttrName = "")))
    "`supposedAttrName` must be a non-empty string.";;
  WLM ← lookUpModel modelIdentity orm;
  correspondingAttrDef ← lookUpAttrDef supposedAttrName modelIdentity orm;
  checkAttributeName WLM correspondingAttrDef supposedAttrName modelIdentity;;
  (* If this value is `undefined`, then bail early. *)
  throw_if (isUndefined value) E_SHOULD_BE_IGNORED_undefined;;
  match correspondingAttrDef with
  | None =>
      (* IWMIH then we already know this model has `schema: false`:
         validate the value as `type: json`. *)
      rttc_validate (Some "json") value
  | Some def =>
      if bool_decide (primaryKey WLM = supposedAttrName) then
        setPrimaryKey value def
      else
        match truthy (collection def) with
        | Some otherModelIdentity =>
            setPluralAssociation value supposedAttrName otherModelIdentity orm allowCollectionAttrs
        | None =>
            match truthy (model def) with
            | Some otherModelIdentity =>
                setSingularAssociation value supposedAttrName def otherModelIdentity orm
            | None =>
                setMiscellaneous value supposedAttrName def
            end
        end
  end.

End NormalizeValueToSet.

(* ===================================================================== *)
(** * validate()                                                          *)
(* ===================================================================== *)

(** The [validate] method of a model: [this.identity] and [this.waterline]
    are the model's identity and ORM; no fifth argument is passed, so
    collection attributes are not allowed.  Every error is thrown again. *)
Definition validate `{Node} `{Rttc} `{Anchor} `{AttrNames} `{PkValues}
  (this_identity : string) (this_waterline : ORM) (attrName : string) (value : Value)
  : Result Value :=
  try_catch (normalizeValueToSet value attrName this_identity this_waterline false)
    (fun e => Throw e).

(* ===================================================================== *)
(** * Reference implementations of the dependencies                       *)
(* ===================================================================== *)

(** Numbers from integers, and the test for a whole number (a canonical
    rational is whole when its denominator is one). *)
Definition numberOfZ (z : Z) : Qc := Q2Qc (inject_Z z).

Definition isWholeNumber (q : Qc) : bool :=
  bool_decide (Qden (this q) = 1%positive).

(** Reading a string of decimal digits, with an optional leading minus. *)
Definition digitOf (a : ascii) : option Z :=
  let n := nat_of_ascii a in
  if (48 <=? n)%nat && (n <=? 57)%nat then Some (Z.of_nat (n - 48)) else None.

Fixpoint parseDigits (s : string) (acc : Z) : option Z :=
  match s with
  | EmptyString => Some acc
  | String a rest =>
      match digitOf a with
      | Some d => parseDigits rest (10 * acc + d)
      | None => None
      end
  end.

Definition parseNumber (s : string) : option Qc :=
  match s with
  | EmptyString => None
  | String a rest =>
      if bool_decide (a = ascii_of_nat 45) then
        match rest with
        | EmptyString => None
        | _ => z ← parseDigits rest 0; Some (numberOfZ (- z))
        end
      else z ← parseDigits s 0; Some (numberOfZ z)
  end.

(** A value that has a JSON form: nothing undefined and no function in it. *)
Fixpoint isJsonCompatible (v : Value) : bool :=
  match v with
  | VUndefined | VFunction _ => false
  | VNull | VBoolean _ | VNumber _ | VString _ => true
  | VArray items => forallb isJsonCompatible items
  | VDictionary fields => forallb (fun kv => isJsonCompatible (snd kv)) fields
  end.

(** The type-mismatch error of the Type Validator. *)
Definition typeMismatch (expected : string) : JsError :=
  flaverr "E_INVALID" (new_Error ("Invalid value: expecting a " +:+ expected +:+ ".")).

(** The primitive type tags. *)
Inductive TypeTag : Type := TString | TNumber | TBoolean | TJson | TRef | TUnrecognized.

Definition typeTagOf (expectedType : option string) : TypeTag :=
  if bool_decide (expectedType = Some "string") then TString
  else if bool_decide (expectedType = Some "number") then TNumber
  else if bool_decide (expectedType = Some "boolean") then TBoolean
  else if bool_decide (expectedType = Some "json") then TJson
  else if bool_decide (expectedType = Some "ref") then TRef
  else TUnrecognized.

(** Modelled from the spec: rttc is a library outside the repository.  The
    Type Validator/Coercer, given a primitive type tag (string, number,
    boolean, json, ref) and a value, accepts the values that are convertible
    to the tag (numeric strings to numbers, for one) and returns the
    canonical value, or fails with a type-mismatch error.  [null] is valid for
    json and ref only, [undefined] for no type.  An unrecognized tag is no
    type mismatch but an error of its own. *)
Definition refValidate (expectedType : option string) (value : Value) : Result Value :=
  match typeTagOf expectedType with
  | TString =>
      match value with
      | VString _ => Return value
      | VBoolean b => Return (VString (if b then "true" else "false"))
      | _ => Throw (typeMismatch "string")
      end
  | TNumber =>
      match value with
      | VNumber _ => Return value
      | VString s =>
          match parseNumber s with
          | Some q => Return (VNumber q)
          | None => Throw (typeMismatch "number")
          end
      | _ => Throw (typeMismatch "number")
      end
  | TBoolean =>
      match value with
      | VBoolean _ => Return value
      | VString s =>
          if bool_decide (s = "true") then Return (VBoolean true)
          else if bool_decide (s = "false") then Return (VBoolean false)
          else Throw (typeMismatch "boolean")
      | _ => Throw (typeMismatch "boolean")
      end
  | TJson =>
      if isJsonCompatible value then Return value else Throw (typeMismatch "json")
  | TRef =>
      if isUndefined value then Throw (typeMismatch "ref") else Return value
  | TUnrecognized => Throw (new_Error "Unrecognized type.")
  end.

(** Modelled from the spec: the base value is the canonical zero-value of a
    type. *)
Definition refCoerce (expectedType : option string) : Value :=
  match typeTagOf expectedType with
  | TString => VString ""
  | TNumber => VNumber (numberOfZ 0)
  | TBoolean => VBoolean false
  | _ => VNull
  end.

Definition refRttc : Rttc :=
  {| rttc_validate := refValidate; rttc_coerce := refCoerce |}.

(** A plain rendering of values and errors for the messages. *)
Definition refToString (v : Value) : string :=
  match v with
  | VUndefined => "undefined"
  | VNull => "null"
  | VBoolean b => if b then "true" else "false"
  | VNumber _ => "[number]"
  | VString s => s
  | VArray _ => "[array]"
  | VDictionary _ => "[object Object]"
  | VFunction fname => "function " +:+ fname +:+ "() { ... }"
  end.

Definition refNode : Node :=
  {| util_inspect := fun _ _ => "[...]";
     stack := fun e => errName e +:+ ": " +:+ message e;
     toString := refToString |}.

(** Letters (with the underscore) and digits. *)
Definition isLetter (a : ascii) : bool :=
  let n := nat_of_ascii a in
  ((65 <=? n)%nat && (n <=? 90)%nat) || ((97 <=? n)%nat && (n <=? 122)%nat) || (n =? 95)%nat.

Definition isDigit (a : ascii) : bool :=
  let n := nat_of_ascii a in (48 <=? n)%nat && (n <=? 57)%nat.

Fixpoint allNameChars (s : string) : bool :=
  match s with
  | EmptyString => true
  | String a rest => (isLetter a || isDigit a) && allNameChars rest
  end.

(** Modelled from the spec: [isValidAttributeName]
    (is-valid-attribute-name.js), whose code is not available.  A
    syntactically valid attribute-name token is read here as a letter or
    underscore followed by letters, digits and underscores. *)
Definition refIsValidAttributeName (hypotheticalAttrName : string) : bool :=
  match hypotheticalAttrName with
  | EmptyString => false
  | String a rest => isLetter a && allNameChars rest
  end.

Definition refAttrNames : AttrNames :=
  {| isValidAttributeName := refIsValidAttributeName |}.

(** Modelled from the spec: [normalizePkValue] (normalize-pk-value.js),
    whose code is not available.
    The Primary-Key Coercer, given a raw value and a primitive type tag,
    normalizes it as a primary-key value; it is stricter than general type
    coercion: it rejects fractional numbers. *)
Definition refNormalizePkValue (pkValue : Value) (expectedPkType : option string) : Result Value :=
  match refValidate expectedPkType pkValue with
  | Return (VNumber q) =>
      if isWholeNumber q then Return (VNumber q)
      else Throw (flaverr "E_INVALID_PK_VALUE"
             (new_Error "Cannot use a fractional number as a primary key value."))
  | Return normalized => Return normalized
  | Throw e =>
      if has_code "E_INVALID" e
      then Throw (flaverr "E_INVALID_PK_VALUE" (new_Error (message e)))
      else Throw e
  end.

Definition refPkValues : PkValues :=
  {| normalizePkValue := refNormalizePkValue |}.

(** The length of a string, as a number. *)
Definition numberOfNat (n : nat) : Qc := numberOfZ (Z.of_nat n).

(** Modelled from the spec: one named constraint of the Rule Validator.  The
    rules here are minLength, maxLength, min and max; a value of the wrong
    kind violates the rule, and a rule with another name constrains nothing. *)
Definition violates (value : Value) (ruleName : string) (config : Value) : bool :=
  match config with
  | VNumber bound =>
      if bool_decide (ruleName = "minLength") then
        match value with
        | VString s => bool_decide (numberOfNat (String.length s) < bound)%Qc
        | _ => true
        end
      else if bool_decide (ruleName = "maxLength") then
        match value with
        | VString s => bool_decide (bound < numberOfNat (String.length s))%Qc
        | _ => true
        end
      else if bool_decide (ruleName = "min") then
        match value with
        | VNumber x => bool_decide (x < bound)%Qc
        | _ => true
        end
      else if bool_decide (ruleName = "max") then
        match value with
        | VNumber x => bool_decide (bound < x)%Qc
        | _ => true
        end
      else false
  | _ => false
  end.

(** Modelled from the spec: anchor is a library outside the repository.  The
    Rule Validator, given an already type-valid value and a declarative
    ruleset (named constraints such as minimum length and numeric bounds),
    returns the list of violated rules, empty if none. *)
Fixpoint refCheckRules (value : Value) (ruleset : Ruleset) : list RuleViolation :=
  match ruleset with
  | [] => []
  | (ruleName, config) :: rest =>
      if violates value ruleName config
      then {| rule := ruleName; rv_message := "Value violates the `" +:+ ruleName +:+ "` rule." |}
             :: refCheckRules value rest
      else refCheckRules value rest
  end.

Definition refAnchor : Anchor :=
  {| anchor := fun value ruleset => Return (refCheckRules value ruleset) |}.

(* ===================================================================== *)
(** * An example ORM                                                      *)
(* ===================================================================== *)

Definition attr (t : string) : AttrDef :=
  {| type := Some t; model := None; collection := None; required := false;
     autoCreatedAt := false; autoUpdatedAt := false; validations := None;
     defaultsTo := None |}.

Definition attrRequired (t : string) : AttrDef :=
  {| type := Some t; model := None; collection := None; required := true;
     autoCreatedAt := false; autoUpdatedAt := false; validations := None;
     defaultsTo := None |}.

Definition attrWithRules (t : string) (ruleset : Ruleset) : AttrDef :=
  {| type := Some t; model := None; collection := None; required := false;
     autoCreatedAt := false; autoUpdatedAt := false; validations := Some ruleset;
     defaultsTo := None |}.

Definition attrAutoCreatedAt (t : string) : AttrDef :=
  {| type := Some t; model := None; collection := None; required := false;
     autoCreatedAt := true; autoUpdatedAt := false; validations := None;
     defaultsTo := None |}.

Definition singular (otherModelIdentity : string) (isRequired : bool) : AttrDef :=
  {| type := None; model := Some otherModelIdentity; collection := None;
     required := isRequired; autoCreatedAt := false; autoUpdatedAt := false;
     validations := None; defaultsTo := None |}.

Definition plural (otherModelIdentity : string) : AttrDef :=
  {| type := None; model := None; collection := Some otherModelIdentity;
     required := false; autoCreatedAt := false; autoUpdatedAt := false;
     validations := None; defaultsTo := None |}.

Definition User : WLModel :=
  {| identity := "user"; hasSchema := VBoolean true; primaryKey := "id";
     attributes :=
       <["id" := attr "number"]>
       (<["name" := attrWithRules "string"
                      [("minLength", VNumber (numberOfZ 5)); ("maxLength", VNumber (numberOfZ 1))]]>
       (<["age" := attrRequired "number"]>
       (<["pets" := plural "pet"]> ∅))) |}.

Definition Pet : WLModel :=
  {| identity := "pet"; hasSchema := VBoolean true; primaryKey := "id";
     attributes :=
       <["id" := attr "number"]>
       (<["name" := attr "string"]>
       (<["owner" := singular "user" false]>
       (<["vet" := singular "user" true]>
       (<["createdAt" := attrAutoCreatedAt "number"]>
       (<["meta" := attr "json"]> ∅))))) |}.

Definition Widget : WLModel :=
  {| identity := "widget"; hasSchema := VBoolean false; primaryKey := "id";
     attributes := <["id" := attr "number"]> ∅ |}.

Definition exampleOrm : ORM :=
  {| collections := <["user" := User]> (<["pet" := Pet]> (<["widget" := Widget]> ∅)) |}.

(** The normalizers over the reference implementations. *)
Definition refNormalizeVsAttribute : Value -> string -> string -> ORM -> Result Value :=
  @normalizeVsAttribute refNode refRttc.

Definition refNormalizeValueToSet : Value -> string -> string -> ORM -> bool -> Result Value :=
  @normalizeValueToSet refNode refRttc refAnchor refAttrNames refPkValues.

(** A model whose [hasSchema] flag was never derived, in an ORM of its own. *)
Definition Draft : WLModel :=
  {| identity := "draft"; hasSchema := VUndefined; primaryKey := "id";
     attributes := <["id" := attr "number"]> ∅ |}.

Definition draftOrm : ORM :=
  {| collections := <["draft" := Draft]> ∅ |}.

(** A model with a ruleset that can be met, in an ORM of its own. *)
Definition Account : WLModel :=
  {| identity := "account"; hasSchema := VBoolean true; primaryKey := "id";
     attributes :=
       <["id" := attr "number"]>
       (<["balance" := attrWithRules "number"
                         [("min", VNumber (numberOfZ 0)); ("max", VNumber (numberOfZ 100))]]> ∅) |}.

Definition accountOrm : ORM :=
  {| collections := <["account" := Account]> ∅ |}.

(** An anchor that throws, whatever the value and the ruleset. *)
Definition throwingAnchor : Anchor :=
  {| anchor := fun _ _ => Throw (flaverr "E_VIOLATES_RULES" (new_Error "Unknown rule.")) |}.

(* ===================================================================== *)
(** * The shapes of an attribute, as the normalizers tell them apart      *)
(* ===================================================================== *)

(** A plural association: the [collection] key is set (to the identity of
    the associated model). *)
Definition isPluralAssociation (def : AttrDef) (otherModelIdentity : string) : Prop :=
  truthy (collection def) = Some otherModelIdentity.

(** A singular association: no [collection] key, and the [model] key is set. *)
Definition isSingularAssociation (def : AttrDef) (otherModelIdentity : string) : Prop :=
  truthy (collection def) = None /\ truthy (model def) = Some otherModelIdentity.

(** A plain (miscellaneous) attribute: neither key is set; its [type] is a
    non-empty string. *)
Definition isPlainAttribute (def : AttrDef) : Prop :=
  truthy (collection def) = None /\ truthy (model def) = None /\
  isNonEmptyString (type def) = true.

(** The model [otherModelIdentity] is registered, and the type of its
    primary key attribute is [pkType]. *)
Definition hasPkType (orm : ORM) (otherModelIdentity : string) (pkType : option string) : Prop :=
  exists OtherWLModel pkAttrDef,
    collections orm !! otherModelIdentity = Some OtherWLModel /\
    attributes OtherWLModel !! primaryKey OtherWLModel = Some pkAttrDef /\
    type pkAttrDef = pkType.

(** A valid primary key value of a type is one [normalizePkValue] takes;
    an invalid one is one it rejects with E_INVALID_PK_VALUE. *)
Definition isValidPk `{PkValues} (pkType : option string) (pkValue : Value) : Prop :=
  exists normalized, normalizePkValue pkValue pkType = Return normalized.

Definition isInvalidPk `{PkValues} (pkType : option string) (pkValue : Value) : Prop :=
  fails_with "E_INVALID_PK_VALUE" (normalizePkValue pkValue pkType).

(** The attribute name gets past the check by the [hasSchema] flag, for a
    declared attribute. *)
Definition passesNameCheck `{AttrNames} (WLM : WLModel) (attrName : string) : Prop :=
  hasSchema WLM = VBoolean true \/
  (hasSchema WLM = VBoolean false /\ isValidAttributeName attrName = true).

(** [attrName] is a declared attribute, with definition [def], of the
    registered model [modelIdentity], and a name the normalizer takes. *)
Record Declared `{AttrNames} (orm : ORM) (modelIdentity attrName : string)
  (WLM : WLModel) (def : AttrDef) : Prop := mkDeclared {
  declared_name : attrName <> "";
  declared_model : collections orm !! modelIdentity = Some WLM;
  declared_attr : attributes WLM !! attrName = Some def;
  declared_check : passesNameCheck WLM attrName
}.

(** [attrName] is not declared by the registered model [modelIdentity]. *)
Record Undeclared (orm : ORM) (modelIdentity attrName : string) (WLM : WLModel) : Prop :=
  mkUndeclared {
  undeclared_name : attrName <> "";
  undeclared_model : collections orm !! modelIdentity = Some WLM;
  undeclared_attr : attributes WLM !! attrName = None
}.

(** The contract of a dependency: it never throws an error with this code. *)
Definition neverThrows {A : Type} (c : string) (r : Result A) : Prop :=
  forall e, r = Throw e -> code e <> Some c.

(** The codes of the errors the branches of the normalizer of values to
    set throw themselves, past the check of the name and of [undefined]: its
    own, the code of a failed assertion, and the codes of the lookups of an
    associated model. *)
Definition codesOfBranches : list string :=
  [ "E_HIGHLY_IRREGULAR"; "E_INVALID"; "E_VIOLATES_RULES"; "ERR_ASSERTION";
    "E_MODEL_NOT_REGISTERED"; "E_ATTR_NOT_REGISTERED" ].

(** An error with the code [c] comes from one of the two dependencies
    whose errors the normalizer of values to set throws as they are
    (E_INVALID_PK_VALUE, which it catches, apart). *)
Definition thrownByDependency `{Rttc} `{PkValues} (c : string) : Prop :=
  (exists t v, fails_with c (rttc_validate t v)) \/
  (c <> "E_INVALID_PK_VALUE" /\ exists v t, fails_with c (normalizePkValue v t)).

(* ===================================================================== *)
(** * Properties                                                          *)
(* ===================================================================== *)

(** ** The exception monad *)

Lemma bind_Return {A B : Type} (a : A) (k : A -> Result B) : (Return a ≫= k) = k a.
Proof. reflexivity. Qed.

Lemma bind_Throw {A B : Type} (e : JsError) (k : A -> Result B) : (Throw e ≫= k) = Throw e.
Proof. reflexivity. Qed.

Lemma has_code_true (c : string) (e : JsError) : has_code c e = true <-> code e = Some c.
Proof. unfold has_code. apply bool_decide_eq_true. Qed.

Lemma has_code_false (c : string) (e : JsError) : has_code c e = false <-> code e <> Some c.
Proof. unfold has_code. apply bool_decide_eq_false. Qed.

Lemma fails_with_Throw {A : Type} (c : string) (e : JsError) :
  fails_with c (@Throw A e) <-> code e = Some c.
Proof.
  split.
  - intros (e' & Heq & Hc). congruence.
  - intros Hc. exists e. auto.
Qed.

Lemma fails_with_Return {A : Type} (c : string) (a : A) : ~ fails_with c (Return a).
Proof. intros (e & Heq & _). discriminate. Qed.

Lemma fails_with_bind {A B : Type} (c : string) (m : Result A) (k : A -> Result B) :
  fails_with c (m ≫= k) ->
  fails_with c m \/ exists a, m = Return a /\ fails_with c (k a).
Proof.
  destruct m as [a | e]; intros Hf.
  - right. exists a. auto.
  - left. apply fails_with_Throw in Hf. apply fails_with_Throw. exact Hf.
Qed.

Lemma fails_with_try_catch {A : Type} (c : string) (m : Result A) (h : JsError -> Result A) :
  fails_with c (try_catch m h) -> exists e, m = Throw e /\ fails_with c (h e).
Proof.
  destruct m as [a | e]; intros Hf.
  - destruct (fails_with_Return _ _ Hf).
  - exists e. auto.
Qed.

Lemma fails_with_rethrow_code {A : Type} (c c' : string) (wrap : JsError -> JsError) (e : JsError) :
  fails_with c (@rethrow_code A c' wrap e) ->
  (code e = Some c' /\ code (wrap e) = Some c) \/ (code e <> Some c' /\ code e = Some c).
Proof.
  unfold rethrow_code. destruct (has_code c' e) eqn:Hc; rewrite fails_with_Throw; intros Hf.
  - left. apply has_code_true in Hc. auto.
  - right. apply has_code_false in Hc. auto.
Qed.

Lemma fails_with_throw_if (c : string) (cond : bool) (err : JsError) :
  fails_with c (throw_if cond err) -> cond = true /\ code err = Some c.
Proof.
  destruct cond; simpl; intros Hf.
  - apply fails_with_Throw in Hf. auto.
  - destruct (fails_with_Return _ _ Hf).
Qed.

Lemma fails_with_assert (c : string) (cond : bool) (msg : string) :
  fails_with c (assert cond msg) -> cond = false /\ c = "ERR_ASSERTION".
Proof.
  destruct cond; simpl; intros Hf.
  - destruct (fails_with_Return _ _ Hf).
  - apply fails_with_Throw in Hf. simpl in Hf. split; congruence.
Qed.

(** ** The ontology helpers *)

Lemma getModel_registered (modelIdentity : string) (orm : ORM) (WLM : WLModel) :
  collections orm !! modelIdentity = Some WLM ->
  getModel modelIdentity orm = Return WLM.
Proof. intros Hm. unfold getModel. rewrite Hm. reflexivity. Qed.

Lemma getModel_inv (modelIdentity : string) (orm : ORM) :
  (exists WLM, collections orm !! modelIdentity = Some WLM /\
               getModel modelIdentity orm = Return WLM) \/
  (exists e, getModel modelIdentity orm = Throw e /\ code e = Some "E_MODEL_NOT_REGISTERED").
Proof.
  unfold getModel. destruct (collections orm !! modelIdentity) as [WLM |].
  - left. eauto.
  - right. eexists. split; reflexivity.
Qed.

Lemma getAttribute_registered (attrName modelIdentity : string) (orm : ORM)
  (WLM : WLModel) (def : AttrDef) :
  collections orm !! modelIdentity = Some WLM ->
  attributes WLM !! attrName = Some def ->
  getAttribute attrName modelIdentity orm = Return def.
Proof.
  intros Hm Ha. unfold getAttribute.
  rewrite (getModel_registered _ _ _ Hm), bind_Return, Ha. reflexivity.
Qed.

Lemma getAttribute_unregistered (attrName modelIdentity : string) (orm : ORM) (WLM : WLModel) :
  collections orm !! modelIdentity = Some WLM ->
  attributes WLM !! attrName = None ->
  exists e, getAttribute attrName modelIdentity orm = Throw e /\
            code e = Some "E_ATTR_NOT_REGISTERED".
Proof.
  intros Hm Ha. unfold getAttribute.
  rewrite (getModel_registered _ _ _ Hm), bind_Return, Ha.
  eexists. split; reflexivity.
Qed.

Lemma getAttribute_fails (c : string) (attrName modelIdentity : string) (orm : ORM) :
  fails_with c (getAttribute attrName modelIdentity orm) ->
  c = "E_MODEL_NOT_REGISTERED" \/ c = "E_ATTR_NOT_REGISTERED".
Proof.
  unfold getAttribute. intros Hf.
  destruct (getModel_inv modelIdentity orm) as [(WLM & Hm & Hg) | (e & Hg & Hc)];
    rewrite Hg in Hf.
  - rewrite bind_Return in Hf.
    destruct (attributes WLM !! attrName).
    + destruct (fails_with_Return _ _ Hf).
    + apply fails_with_Throw in Hf. simpl in Hf. right. congruence.
  - rewrite bind_Throw in Hf. apply fails_with_Throw in Hf. left. congruence.
Qed.

(** ** normalizeValueToSet(): model, attribute and name checks *)

Section WriteChecks.
Context `{Node} `{Rttc} `{Anchor} `{AttrNames} `{PkValues}.

Lemma lookUpModel_registered (modelIdentity : string) (orm : ORM) (WLM : WLModel) :
  collections orm !! modelIdentity = Some WLM ->
  lookUpModel modelIdentity orm = Return WLM.
Proof. intros Hm. unfold lookUpModel. rewrite (getModel_registered _ _ _ Hm). reflexivity. Qed.

Lemma lookUpAttrDef_declared (attrName modelIdentity : string) (orm : ORM)
  (WLM : WLModel) (def : AttrDef) :
  collections orm !! modelIdentity = Some WLM ->
  attributes WLM !! attrName = Some def ->
  lookUpAttrDef attrName modelIdentity orm = Return (Some def).
Proof.
  intros Hm Ha. unfold lookUpAttrDef.
  rewrite (getAttribute_registered _ _ _ _ _ Hm Ha). reflexivity.
Qed.

Lemma lookUpAttrDef_undeclared (attrName modelIdentity : string) (orm : ORM) (WLM : WLModel) :
  collections orm !! modelIdentity = Some WLM ->
  attributes WLM !! attrName = None ->
  lookUpAttrDef attrName modelIdentity orm = Return None.
Proof.
  intros Hm Ha. unfold lookUpAttrDef.
  destruct (getAttribute_unregistered _ _ _ _ Hm Ha) as (e & He & Hc).
  rewrite He, bind_Throw. simpl. apply has_code_true in Hc. rewrite Hc. reflexivity.
Qed.

Lemma checkAttributeName_declared (WLM : WLModel) (def : AttrDef)
  (attrName modelIdentity : string) :
  passesNameCheck WLM attrName ->
  checkAttributeName WLM (Some def) attrName modelIdentity = Return tt.
Proof.
  unfold checkAttributeName. intros [Hs | [Hs Hv]]; rewrite Hs.
  - reflexivity.
  - rewrite Hv. reflexivity.
Qed.

(** The prologue of the normalizer, up to the check of the name. *)
Lemma normalizeValueToSet_prologue (value : Value) (attrName modelIdentity : string)
  (orm : ORM) (allow : bool) (WLM : WLModel) (correspondingAttrDef : option AttrDef) :
  attrName <> "" ->
  collections orm !! modelIdentity = Some WLM ->
  attributes WLM !! attrName = correspondingAttrDef ->
  normalizeValueToSet value attrName modelIdentity orm allow =
    (checkAttributeName WLM correspondingAttrDef attrName modelIdentity;;
     throw_if (isUndefined value) E_SHOULD_BE_IGNORED_undefined;;
     match correspondingAttrDef with
     | None => rttc_validate (Some "json") value
     | Some def =>
         if bool_decide (primaryKey WLM = attrName) then setPrimaryKey value def
         else
           match truthy (collection def) with
           | Some otherModelIdentity =>
               setPluralAssociation value attrName otherModelIdentity orm allow
           | None =>
               match truthy (model def) with
               | Some otherModelIdentity =>
                   setSingularAssociation value attrName def otherModelIdentity orm
               | None => setMiscellaneous value attrName def
               end
           end
     end).
Proof.
  intros Hname Hm Ha. unfold normalizeValueToSet.
  rewrite (bool_decide_eq_false_2 _ Hname). simpl assert. rewrite bind_Return.
  rewrite (lookUpModel_registered _ _ _ Hm), bind_Return.
  destruct correspondingAttrDef as [def |].
  - rewrite (lookUpAttrDef_declared _ _ _ _ _ Hm Ha), bind_Return. reflexivity.
  - rewrite (lookUpAttrDef_undeclared _ _ _ _ Hm Ha), bind_Return. reflexivity.
Qed.

(** A defined value for a declared attribute is dispatched on the shape of
    the attribute: primary key first, then plural association, singular
    association, and miscellaneous attribute. *)
Lemma normalizeValueToSet_declared (value : Value) (attrName modelIdentity : string)
  (orm : ORM) (allow : bool) (WLM : WLModel) (def : AttrDef) :
  Declared orm modelIdentity attrName WLM def ->
  value <> VUndefined ->
  normalizeValueToSet value attrName modelIdentity orm allow =
    if bool_decide (primaryKey WLM = attrName) then setPrimaryKey value def
    else
      match truthy (collection def) with
      | Some otherModelIdentity =>
          setPluralAssociation value attrName otherModelIdentity orm allow
      | None =>
          match truthy (model def) with
          | Some otherModelIdentity =>
              setSingularAssociation value attrName def otherModelIdentity orm
          | None => setMiscellaneous value attrName def
          end
      end.
Proof.
  intros [Hname Hm Ha Hcheck] Hdef.
  rewrite (normalizeValueToSet_prologue _ _ _ _ _ _ _ Hname Hm Ha).
  rewrite (checkAttributeName_declared _ _ _ _ Hcheck), bind_Return.
  destruct value; try congruence; reflexivity.
Qed.

(** An undefined value for a declared attribute is to be ignored. *)
Lemma normalizeValueToSet_declared_undefined (attrName modelIdentity : string)
  (orm : ORM) (allow : bool) (WLM : WLModel) (def : AttrDef) :
  Declared orm modelIdentity attrName WLM def ->
  normalizeValueToSet VUndefined attrName modelIdentity orm allow =
    Throw E_SHOULD_BE_IGNORED_undefined.
Proof.
  intros [Hname Hm Ha Hcheck].
  rewrite (normalizeValueToSet_prologue _ _ _ _ _ _ _ Hname Hm Ha).
  rewrite (checkAttributeName_declared _ _ _ _ Hcheck), bind_Return.
  reflexivity.
Qed.

Lemma associatedPkTypeOf_registered (orm : ORM) (otherModelIdentity : string)
  (pkType : option string) :
  hasPkType orm otherModelIdentity pkType ->
  associatedPkTypeOf otherModelIdentity orm = Return pkType.
Proof.
  intros (OtherWLModel & pkAttrDef & Hm & Ha & Ht). unfold associatedPkTypeOf.
  rewrite (getModel_registered _ _ _ Hm), bind_Return.
  rewrite (getAttribute_registered _ _ _ _ _ Hm Ha), bind_Return.
  rewrite Ht. reflexivity.
Qed.

End WriteChecks.

(** ** normalizeValueToSet(): unrecognized attributes *)

Section WriteUnrecognized.
Context `{Node} `{Rttc} `{Anchor} `{AttrNames} `{PkValues}.

(** C3: for every model with [hasSchema === true] and every attribute name
    that is absent from its attribute map, [normalizeValueToSet] fails with
    E_SHOULD_BE_IGNORED, whatever the value supplied (and whether or not
    collection attributes are allowed). *)
Theorem strict_schema_ignores_unrecognized (value : Value) (attrName modelIdentity : string)
  (orm : ORM) (allowCollectionAttrs : bool) (WLM : WLModel) :
  Undeclared orm modelIdentity attrName WLM ->
  hasSchema WLM = VBoolean true ->
  fails_with "E_SHOULD_BE_IGNORED"
    (normalizeValueToSet value attrName modelIdentity orm allowCollectionAttrs).
Proof.
  intros [Hname Hm Ha] Hs.
  rewrite (normalizeValueToSet_prologue _ _ _ _ _ _ _ Hname Hm Ha).
  unfold checkAttributeName. rewrite Hs. simpl.
  apply fails_with_Throw. reflexivity.
Qed.

(** C4 (amended): for every model with [hasSchema === false] and every
    attribute name that is absent from its attribute map, the name must be
    a valid attribute name, or [normalizeValueToSet] fails with
    E_HIGHLY_IRREGULAR.  With a valid name, the value [undefined] fails with
    E_SHOULD_BE_IGNORED, and every other value is validated as type json:
    the normalizer returns what [rttc.validate('json', value)] returns and
    fails with the error it throws (E_INVALID for a value that is not
    JSON-compatible). *)
Theorem loose_schema_validates_unrecognized_as_json (value : Value)
  (attrName modelIdentity : string) (orm : ORM) (allowCollectionAttrs : bool) (WLM : WLModel) :
  Undeclared orm modelIdentity attrName WLM ->
  hasSchema WLM = VBoolean false ->
  (isValidAttributeName attrName = false ->
     fails_with "E_HIGHLY_IRREGULAR"
       (normalizeValueToSet value attrName modelIdentity orm allowCollectionAttrs)) /\
  (isValidAttributeName attrName = true -> value = VUndefined ->
     fails_with "E_SHOULD_BE_IGNORED"
       (normalizeValueToSet value attrName modelIdentity orm allowCollectionAttrs)) /\
  (isValidAttributeName attrName = true -> value <> VUndefined ->
     normalizeValueToSet value attrName modelIdentity orm allowCollectionAttrs =
       rttc_validate (Some "json") value).
Proof.
  intros [Hname Hm Ha] Hs.
  rewrite (normalizeValueToSet_prologue _ _ _ _ _ _ _ Hname Hm Ha).
  unfold checkAttributeName. rewrite Hs.
  repeat split; intros Hv.
  - rewrite Hv. simpl. apply fails_with_Throw. reflexivity.
  - intros ->. rewrite Hv. simpl. apply fails_with_Throw. reflexivity.
  - intros Hdef. rewrite Hv. simpl throw_if. rewrite bind_Return.
    destruct value; try congruence; reflexivity.
Qed.

End WriteUnrecognized.

(** C3, at work: the model pet declares no attribute [extra]. *)
Lemma strict_schema_ignores_unrecognized_witness :
  fails_with "E_SHOULD_BE_IGNORED"
    (refNormalizeValueToSet (VString "anything") "extra" "pet" exampleOrm false) /\
  fails_with "E_SHOULD_BE_IGNORED"
    (refNormalizeValueToSet VUndefined "extra" "pet" exampleOrm true).
Proof.
  split.
  - apply (@strict_schema_ignores_unrecognized refNode refRttc refAnchor refAttrNames
             refPkValues (VString "anything") "extra" "pet" exampleOrm false Pet).
    + split; [discriminate | reflexivity | reflexivity].
    + reflexivity.
  - apply (@strict_schema_ignores_unrecognized refNode refRttc refAnchor refAttrNames
             refPkValues VUndefined "extra" "pet" exampleOrm true Pet).
    + split; [discriminate | reflexivity | reflexivity].
    + reflexivity.
Defined.

(** C4, at work: the model widget has [hasSchema === false] and declares no
    attribute [extra]. *)
Lemma loose_schema_validates_unrecognized_as_json_witness :
  fails_with "E_HIGHLY_IRREGULAR"
    (refNormalizeValueToSet (VString "x") "not a name" "widget" exampleOrm false) /\
  refNormalizeValueToSet (VFunction "f") "extra" "widget" exampleOrm false =
    refValidate (Some "json") (VFunction "f") /\
  refNormalizeValueToSet (VArray [VNull; VString "x"]) "extra" "widget" exampleOrm false =
    Return (VArray [VNull; VString "x"]).
Proof.
  split; [| split].
  - apply (@loose_schema_validates_unrecognized_as_json refNode refRttc refAnchor refAttrNames
             refPkValues (VString "x") "not a name" "widget" exampleOrm false Widget).
    + split; [discriminate | reflexivity | reflexivity].
    + reflexivity.
    + reflexivity.
  - apply (@loose_schema_validates_unrecognized_as_json refNode refRttc refAnchor refAttrNames
             refPkValues (VFunction "f") "extra" "widget" exampleOrm false Widget).
    + split; [discriminate | reflexivity | reflexivity].
    + reflexivity.
    + reflexivity.
    + discriminate.
  - apply (@loose_schema_validates_unrecognized_as_json refNode refRttc refAnchor refAttrNames
             refPkValues (VArray [VNull; VString "x"]) "extra" "widget" exampleOrm false Widget).
    + split; [discriminate | reflexivity | reflexivity].
    + reflexivity.
    + reflexivity.
    + discriminate.
Defined.

(** The value [undefined] for an unrecognized attribute of a model with
    [hasSchema === false]: it is not JSON-compatible, and the normalizer
    fails with E_SHOULD_BE_IGNORED, not with E_INVALID. *)
Lemma loose_schema_undefined_is_ignored :
  Undeclared exampleOrm "widget" "extra" Widget /\
  hasSchema Widget = VBoolean false /\
  refValidate (Some "json") VUndefined = Throw (typeMismatch "json") /\
  refNormalizeValueToSet VUndefined "extra" "widget" exampleOrm false =
    Throw E_SHOULD_BE_IGNORED_undefined /\
  code E_SHOULD_BE_IGNORED_undefined = Some "E_SHOULD_BE_IGNORED".
Proof.
  split; [split; [discriminate | reflexivity | reflexivity] |].
  repeat split; reflexivity.
Qed.

(** ** normalizeValueToSet(): associations *)

Section WriteAssociations.
Context `{Node} `{Rttc} `{Anchor} `{AttrNames} `{PkValues}.

Lemma normalizeEachPkValue_valid (pkType : option string) (items items' : list Value) :
  Forall2 (fun item item' => normalizePkValue item pkType = Return item') items items' ->
  normalizeEachPkValue items pkType = Return items'.
Proof.
  induction 1 as [| item item' items items' Hitem _ IH]; simpl.
  - reflexivity.
  - rewrite Hitem, bind_Return, IH. reflexivity.
Qed.

Lemma normalizeEachPkValue_invalid (pkType : option string) (items : list Value) :
  Forall (fun item => isValidPk pkType item \/ isInvalidPk pkType item) items ->
  Exists (isInvalidPk pkType) items ->
  fails_with "E_INVALID_PK_VALUE" (normalizeEachPkValue items pkType).
Proof.
  induction 1 as [| item items Hitem _ IH]; intros Hex.
  - inversion Hex.
  - simpl. destruct Hitem as [(item' & Hok) | (e & He & Hc)].
    + rewrite Hok, bind_Return.
      inversion Hex as [? ? (e & He & _) | ? ? Hrest]; subst.
      * congruence.
      * destruct (IH Hrest) as (e & He & Hc). rewrite He, bind_Throw.
        apply fails_with_Throw. exact Hc.
    + rewrite He, bind_Throw. apply fails_with_Throw. exact Hc.
Qed.

(** C5 (amended): for every plural association attribute (that is not the
    primary key attribute): when collection attributes are not allowed,
    [normalizeValueToSet] fails with E_HIGHLY_IRREGULAR for every value other
    than [undefined], a well-formed array of valid primary keys included;
    when they are allowed, an array whose items are all valid primary key
    values of the associated model is returned, item by item normalized, and
    an array with at least one invalid item fails with E_HIGHLY_IRREGULAR. *)
Theorem plural_association_gate (value : Value) (attrName modelIdentity : string) (orm : ORM)
  (WLM : WLModel) (def : AttrDef) (otherModelIdentity : string) :
  Declared orm modelIdentity attrName WLM def ->
  primaryKey WLM <> attrName ->
  isPluralAssociation def otherModelIdentity ->
  (value <> VUndefined ->
     fails_with "E_HIGHLY_IRREGULAR"
       (normalizeValueToSet value attrName modelIdentity orm false)) /\
  (forall (pkType : option string) (items : list Value),
     hasPkType orm otherModelIdentity pkType ->
     (forall items' : list Value,
        Forall2 (fun item item' => normalizePkValue item pkType = Return item') items items' ->
        normalizeValueToSet (VArray items) attrName modelIdentity orm true =
          Return (VArray items')) /\
     (Forall (fun item => isValidPk pkType item \/ isInvalidPk pkType item) items ->
      Exists (isInvalidPk pkType) items ->
      fails_with "E_HIGHLY_IRREGULAR"
        (normalizeValueToSet (VArray items) attrName modelIdentity orm true))).
Proof.
  intros Hdecl Hpk Hplural. unfold isPluralAssociation in Hplural. split.
  - intros Hdef.
    rewrite (normalizeValueToSet_declared _ _ _ _ _ _ _ Hdecl Hdef).
    rewrite (bool_decide_eq_false_2 _ Hpk), Hplural.
    apply fails_with_Throw. reflexivity.
  - intros pkType items Hother.
    assert (Hrun : normalizeValueToSet (VArray items) attrName modelIdentity orm true =
                   try_catch (normalized ← normalizeEachPkValue items pkType;
                              Return (VArray normalized))
                     (rethrow_code "E_INVALID_PK_VALUE"
                        (fun _ => E_HIGHLY_IRREGULAR_ids (VArray items) attrName))).
    { rewrite (normalizeValueToSet_declared _ _ _ _ _ _ _ Hdecl) by discriminate.
      rewrite (bool_decide_eq_false_2 _ Hpk), Hplural.
      unfold setPluralAssociation. simpl throw_if. rewrite bind_Return.
      rewrite (associatedPkTypeOf_registered _ _ _ Hother), bind_Return.
      reflexivity. }
    rewrite Hrun. split.
    + intros items' Hall.
      rewrite (normalizeEachPkValue_valid _ _ _ Hall). reflexivity.
    + intros Hall Hex.
      destruct (normalizeEachPkValue_invalid _ _ Hall Hex) as (e & He & Hc).
      rewrite He, bind_Throw. simpl. unfold rethrow_code.
      apply has_code_true in Hc. rewrite Hc.
      apply fails_with_Throw. reflexivity.
Qed.

(** C6: for every singular association attribute (that is not the primary
    key attribute), writing [null] fails with E_HIGHLY_IRREGULAR when the
    attribute is required, and returns [null] when it is not. *)
Theorem singular_association_null (attrName modelIdentity : string) (orm : ORM)
  (allowCollectionAttrs : bool) (WLM : WLModel) (def : AttrDef) (otherModelIdentity : string) :
  Declared orm modelIdentity attrName WLM def ->
  primaryKey WLM <> attrName ->
  isSingularAssociation def otherModelIdentity ->
  (required def = true ->
     fails_with "E_HIGHLY_IRREGULAR"
       (normalizeValueToSet VNull attrName modelIdentity orm allowCollectionAttrs)) /\
  (required def = false ->
     normalizeValueToSet VNull attrName modelIdentity orm allowCollectionAttrs = Return VNull).
Proof.
  intros Hdecl Hpk [Hcoll Hmodel].
  rewrite (normalizeValueToSet_declared _ _ _ _ _ _ _ Hdecl) by discriminate.
  rewrite (bool_decide_eq_false_2 _ Hpk), Hcoll, Hmodel.
  unfold setSingularAssociation. simpl isNull. cbv iota.
  split; intros ->; simpl.
  - apply fails_with_Throw. reflexivity.
  - reflexivity.
Qed.

End WriteAssociations.

(** ** normalizeValueToSet(): miscellaneous attributes *)

Section WriteMiscellaneous.
Context `{Node} `{Rttc} `{Anchor} `{AttrNames} `{PkValues}.

(** A defined value for a plain attribute that is not the primary key goes
    through the timestamp check, the check for [null], the type validation
    and the check for rule violations. *)
Lemma normalizeValueToSet_plain (value : Value) (attrName modelIdentity : string) (orm : ORM)
  (allow : bool) (WLM : WLModel) (def : AttrDef) :
  Declared orm modelIdentity attrName WLM def ->
  primaryKey WLM <> attrName ->
  isPlainAttribute def ->
  value <> VUndefined ->
  normalizeValueToSet value attrName modelIdentity orm allow =
    (throw_if (isEmptyString value && (autoCreatedAt def || autoUpdatedAt def))
       (E_HIGHLY_IRREGULAR_timestamp attrName);;
     throw_if (isProvidingNullForIncompatibleOptionalAttr value def)
       (E_INVALID_null attrName def);;
     value' ← rttc_validate (type def) value;
     checkForRuleViolations value' attrName def;;
     Return value').
Proof.
  intros Hdecl Hpk (Hcoll & Hmodel & Htype) Hdef.
  rewrite (normalizeValueToSet_declared _ _ _ _ _ _ _ Hdecl Hdef).
  rewrite (bool_decide_eq_false_2 _ Hpk), Hcoll, Hmodel.
  unfold setMiscellaneous. rewrite Htype. reflexivity.
Qed.

(** C2 (amended): for every write of [null] to a plain attribute whose
    declared type is neither json nor ref and that is not required,
    [normalizeValueToSet] fails with E_INVALID, with the message of its own
    that names the base value of the type to set instead ([''] for string,
    [0] for number, [rttc.coerce(type)] otherwise).  For a required
    attribute the [null] goes on to [rttc.validate], and the error that
    throws is the error of the normalizer. *)
Theorem null_for_plain_attribute (attrName modelIdentity : string) (orm : ORM)
  (allowCollectionAttrs : bool) (WLM : WLModel) (def : AttrDef) :
  Declared orm modelIdentity attrName WLM def ->
  primaryKey WLM <> attrName ->
  isPlainAttribute def ->
  isNeitherJsonNorRef (type def) = true ->
  (required def = false ->
     normalizeValueToSet VNull attrName modelIdentity orm allowCollectionAttrs =
       Throw (E_INVALID_null attrName def) /\
     code (E_INVALID_null attrName def) = Some "E_INVALID" /\
     (type def = Some "string" -> getBaseValuePhrase def = "`''` (empty string)") /\
     (type def = Some "number" -> getBaseValuePhrase def = "`0` (zero)")) /\
  (required def = true ->
     forall e, rttc_validate (type def) VNull = Throw e ->
     normalizeValueToSet VNull attrName modelIdentity orm allowCollectionAttrs = Throw e).
Proof.
  intros Hdecl Hpk Hplain Htype.
  rewrite (normalizeValueToSet_plain _ _ _ _ _ _ _ Hdecl Hpk Hplain) by discriminate.
  unfold isProvidingNullForIncompatibleOptionalAttr. rewrite Htype.
  split; intros Hreq; rewrite Hreq.
  - repeat split.
    + unfold getBaseValuePhrase. intros ->. reflexivity.
    + unfold getBaseValuePhrase. intros ->. reflexivity.
  - intros e He. simpl. rewrite He. reflexivity.
Qed.

(** C8: for every plain attribute that declares a validation ruleset, a
    value that got past the timestamp check and the check for [null], and
    that [rttc.validate] took and returned as [value']: if [value'] is
    [null] the ruleset is not evaluated (the normalizer returns [null],
    whatever anchor would say); if not, the violations anchor reports for
    [value'] decide: none, and [value'] is returned; any, and the normalizer
    fails with E_VIOLATES_RULES carrying the complete list of them. *)
Theorem rule_violations_are_all_reported (value value' : Value) (attrName modelIdentity : string)
  (orm : ORM) (allowCollectionAttrs : bool) (WLM : WLModel) (def : AttrDef) (ruleset : Ruleset) :
  Declared orm modelIdentity attrName WLM def ->
  primaryKey WLM <> attrName ->
  isPlainAttribute def ->
  validations def = Some ruleset ->
  value <> VUndefined ->
  isEmptyString value && (autoCreatedAt def || autoUpdatedAt def) = false ->
  isProvidingNullForIncompatibleOptionalAttr value def = false ->
  rttc_validate (type def) value = Return value' ->
  (value' = VNull ->
     normalizeValueToSet value attrName modelIdentity orm allowCollectionAttrs = Return VNull) /\
  (value' <> VNull ->
     forall violations : list RuleViolation,
       anchor value' ruleset = Return violations ->
       (violations = [] ->
          normalizeValueToSet value attrName modelIdentity orm allowCollectionAttrs =
            Return value') /\
       (violations <> [] ->
          exists e,
            normalizeValueToSet value attrName modelIdentity orm allowCollectionAttrs = Throw e /\
            code e = Some "E_VIOLATES_RULES" /\
            ruleViolations e = Some violations)).
Proof.
  intros Hdecl Hpk Hplain Hrules Hdef Htimestamp Hnull Hvalid.
  rewrite (normalizeValueToSet_plain _ _ _ _ _ _ _ Hdecl Hpk Hplain Hdef).
  rewrite Htimestamp, Hnull, Hvalid. simpl throw_if. rewrite !bind_Return.
  unfold checkForRuleViolations. rewrite Hrules.
  split.
  - intros ->. reflexivity.
  - intros Hnotnull violations Hanchor.
    assert (Hn : isNull value' = false) by (destruct value'; try reflexivity; congruence).
    rewrite Hn, Hanchor. simpl.
    split.
    + intros ->. reflexivity.
    + intros Hne. destruct violations as [| violation violations]; [congruence |].
      rewrite bool_decide_eq_true_2 by (simpl; lia). simpl.
      eexists. repeat split.
Qed.

End WriteMiscellaneous.

(** ** normalizeValueToSet(): idempotence on plain attributes *)

Section WriteIdempotence.
Context `{Node} `{Rttc} `{Anchor} `{AttrNames} `{PkValues}.

(** What the normalizer relies on of [rttc.validate]: a value it returns
    is valid as it is (coercion is a projection); [undefined] is valid for
    no type; [null] is valid for json and ref only; and the empty string is
    the coercion of nothing but itself. *)
Hypothesis validate_projection :
  forall t value value', rttc_validate t value = Return value' ->
                         rttc_validate t value' = Return value'.
Hypothesis validate_undefined :
  forall t value', rttc_validate t VUndefined <> Return value'.
Hypothesis validate_null :
  forall t value', rttc_validate t VNull = Return value' -> isNeitherJsonNorRef t = false.
Hypothesis validate_empty_string :
  forall t value, rttc_validate t value = Return (VString "") -> value = VString "".

(** C9: for every plain attribute (that is not the primary key attribute),
    [normalizeValueToSet] is idempotent: applied to a value it has returned,
    it returns that value again. *)
Theorem normalizeValueToSet_idempotent (value value' : Value) (attrName modelIdentity : string)
  (orm : ORM) (allowCollectionAttrs : bool) (WLM : WLModel) (def : AttrDef) :
  Declared orm modelIdentity attrName WLM def ->
  primaryKey WLM <> attrName ->
  isPlainAttribute def ->
  normalizeValueToSet value attrName modelIdentity orm allowCollectionAttrs = Return value' ->
  normalizeValueToSet value' attrName modelIdentity orm allowCollectionAttrs = Return value'.
Proof.
  intros Hdecl Hpk Hplain Hrun.
  assert (Hdef : value <> VUndefined).
  { intros ->. rewrite (normalizeValueToSet_declared_undefined _ _ _ _ _ _ Hdecl) in Hrun.
    discriminate. }
  rewrite (normalizeValueToSet_plain _ _ _ _ _ _ _ Hdecl Hpk Hplain Hdef) in Hrun.
  destruct (isEmptyString value && (autoCreatedAt def || autoUpdatedAt def)) eqn:Htimestamp;
    [discriminate |].
  destruct (isProvidingNullForIncompatibleOptionalAttr value def) eqn:Hnull;
    [discriminate |].
  simpl throw_if in Hrun. rewrite !bind_Return in Hrun.
  destruct (rttc_validate (type def) value) as [value1 | e] eqn:Hvalid; [| discriminate].
  rewrite bind_Return in Hrun.
  destruct (checkForRuleViolations value1 attrName def) as [[] | e] eqn:Hrules; [| discriminate].
  rewrite bind_Return in Hrun. injection Hrun as ->.
  pose proof (validate_projection _ _ _ Hvalid) as Hagain.
  assert (Hdef' : value' <> VUndefined).
  { intros ->. exact (validate_undefined _ _ Hagain). }
  rewrite (normalizeValueToSet_plain _ _ _ _ _ _ _ Hdecl Hpk Hplain Hdef').
  assert (Htimestamp' :
            isEmptyString value' && (autoCreatedAt def || autoUpdatedAt def) = false).
  { destruct (isEmptyString value') eqn:Hempty; [| reflexivity].
    destruct value'; try discriminate. simpl in Hempty.
    apply bool_decide_eq_true in Hempty. subst s.
    rewrite (validate_empty_string _ _ Hvalid) in Htimestamp. exact Htimestamp. }
  assert (Hnull' : isProvidingNullForIncompatibleOptionalAttr value' def = false).
  { unfold isProvidingNullForIncompatibleOptionalAttr.
    destruct (isNull value') eqn:Hisnull; [| reflexivity].
    destruct value'; try discriminate.
    rewrite (validate_null _ _ Hagain). reflexivity. }
  rewrite Htimestamp', Hnull'. simpl throw_if. rewrite !bind_Return.
  rewrite Hagain, bind_Return, Hrules. reflexivity.
Qed.

End WriteIdempotence.

(** ** normalizeVsAttribute() *)

Section Filter.
Context `{Node} `{Rttc}.

Lemma normalizeVsAttribute_registered (value : Value) (attrName modelIdentity : string)
  (orm : ORM) (WLM : WLModel) :
  collections orm !! modelIdentity = Some WLM ->
  value <> VUndefined ->
  normalizeVsAttribute value attrName modelIdentity orm =
    (match attributes WLM !! attrName with
     | Some def =>
         assert (negb (isTruthy (collection def)))
           "Should not call this internal utility on a plural association (i.e. `collection` attribute)."
     | None => Return tt
     end;;
     if isNull value then Return value
     else
       match attributes WLM !! attrName with
       | None =>
           try_catch (rttc_validate (Some "json") value)
             (rethrow_code "E_INVALID" notJsonCompatible)
       | Some def =>
           match truthy (model def) with
           | Some otherModelIdentity =>
               associatedPkType ← associatedPkTypeOf otherModelIdentity orm;
               try_catch (rttc_validate associatedPkType value)
                 (rethrow_code "E_INVALID" (notAssociatedPk attrName otherModelIdentity))
           | None =>
               assert (isNonEmptyString (type def))
                 ("There is no way this attribute (`" +:+ attrName +:+
                  "`) should have been allowed to be registered with neither a `type`, `model`, nor `collection`!  Here is the attr def: "
                  +:+ util_inspect def);;
               try_catch (rttc_validate (type def) value)
                 (rethrow_code "E_INVALID" notDeclaredType)
           end
       end).
Proof.
  intros Hm Hdef. unfold normalizeVsAttribute.
  assert (Hu : isUndefined value = false) by (destruct value; try reflexivity; congruence).
  rewrite Hu. simpl assert. rewrite bind_Return.
  rewrite (getModel_registered _ _ _ Hm), bind_Return. reflexivity.
Qed.

(** C1 (amended): for a registered model, [normalizeVsAttribute] called
    with [null] returns [null] for every attribute that is not a plural
    association: a plain attribute, a singular association, and an attribute
    the model does not declare.  For a plural association the call fails
    the assertion of the normalizer, for [null] as for every other value. *)
Theorem null_filter_is_always_allowed (attrName modelIdentity : string) (orm : ORM)
  (WLM : WLModel) :
  collections orm !! modelIdentity = Some WLM ->
  ((attributes WLM !! attrName = None \/
    exists def, attributes WLM !! attrName = Some def /\ truthy (collection def) = None) ->
   normalizeVsAttribute VNull attrName modelIdentity orm = Return VNull) /\
  (forall def otherModelIdentity value,
     attributes WLM !! attrName = Some def ->
     isPluralAssociation def otherModelIdentity ->
     value <> VUndefined ->
     exists e, normalizeVsAttribute value attrName modelIdentity orm = Throw e /\
               errName e = "AssertionError").
Proof.
  intros Hm. split.
  - intros Hshape.
    rewrite (normalizeVsAttribute_registered _ _ _ _ _ Hm) by discriminate.
    destruct Hshape as [Ha | (def & Ha & Hcoll)]; rewrite Ha.
    + reflexivity.
    + unfold isTruthy. rewrite Hcoll. reflexivity.
  - intros def otherModelIdentity value Ha Hplural Hdef.
    rewrite (normalizeVsAttribute_registered _ _ _ _ _ Hm Hdef), Ha.
    unfold isTruthy. rewrite Hplural. simpl. eexists. split; reflexivity.
Qed.

(** C7: for every singular association attribute and every filter value
    other than [null], [normalizeVsAttribute] validates the value against
    the type of the primary key of the associated model with
    [rttc.validate], the general loose validation ([normalizePkValue] is no
    dependency of this normalizer): it returns what the validation returns,
    and fails with E_VALUE_NOT_USABLE exactly when the validation fails
    (with the type mismatch E_INVALID, the one failure of a validation). *)
Theorem singular_association_filter_is_loosely_validated (value : Value)
  (attrName modelIdentity : string) (orm : ORM) (WLM : WLModel) (def : AttrDef)
  (otherModelIdentity : string) (pkType : option string) :
  collections orm !! modelIdentity = Some WLM ->
  attributes WLM !! attrName = Some def ->
  isSingularAssociation def otherModelIdentity ->
  hasPkType orm otherModelIdentity pkType ->
  value <> VUndefined ->
  value <> VNull ->
  (forall e, rttc_validate pkType value = Throw e -> code e = Some "E_INVALID") ->
  (forall value', normalizeVsAttribute value attrName modelIdentity orm = Return value' <->
                  rttc_validate pkType value = Return value') /\
  (fails_with "E_VALUE_NOT_USABLE" (normalizeVsAttribute value attrName modelIdentity orm) <->
   exists e, rttc_validate pkType value = Throw e).
Proof.
  intros Hm Ha [Hcoll Hmodel] Hother Hdef Hnotnull Hcontract.
  rewrite (normalizeVsAttribute_registered _ _ _ _ _ Hm Hdef), Ha.
  unfold isTruthy. rewrite Hcoll. simpl assert. rewrite bind_Return.
  assert (Hn : isNull value = false) by (destruct value; try reflexivity; congruence).
  rewrite Hn, Hmodel, (associatedPkTypeOf_registered _ _ _ Hother), bind_Return.
  destruct (rttc_validate pkType value) as [value1 | e] eqn:Hvalid; simpl.
  - split.
    + intros value'. reflexivity.
    + split.
      * intros Hf. destruct (fails_with_Return _ _ Hf).
      * intros (e & He). discriminate.
  - unfold rethrow_code.
    pose proof (Hcontract e eq_refl) as Hc. apply has_code_true in Hc. rewrite Hc.
    split.
    + intros value'. split; discriminate.
    + split.
      * intros _. exists e. reflexivity.
      * intros _. apply fails_with_Throw. reflexivity.
Qed.

End Filter.

(** ** validate() *)

(** The public method is the normalizer of values to set, collection
    attributes not allowed, with every error thrown again as it is. *)
Lemma validate_is_normalizeValueToSet `{Node} `{Rttc} `{Anchor} `{AttrNames} `{PkValues}
  (this_identity : string) (this_waterline : ORM) (attrName : string) (value : Value) :
  validate this_identity this_waterline attrName value =
    normalizeValueToSet value attrName this_identity this_waterline false.
Proof.
  unfold validate.
  destruct (normalizeValueToSet value attrName this_identity this_waterline false);
    reflexivity.
Qed.

(** ** normalizeValueToSet(): where E_VIOLATES_RULES comes from *)

(** Closes a goal with a hypothesis that equates two different codes. *)
Ltac other_code :=
  match goal with
  | Hc : code _ = Some _ |- _ => simpl in Hc; discriminate Hc
  | Hc : _ /\ code _ = Some _ |- _ => destruct Hc as [_ Hc]; simpl in Hc; discriminate Hc
  | Hc : _ /\ _ = "ERR_ASSERTION" |- _ => destruct Hc as [_ Hc]; discriminate Hc
  | Hc : @eq string _ _ |- _ => discriminate Hc
  | Hc : _ \/ _ |- _ => destruct Hc; other_code
  | Hf : fails_with _ (Return _) |- _ => destruct (fails_with_Return _ _ Hf)
  | Hf : fails_with _ (Throw _) |- _ => apply fails_with_Throw in Hf; simpl in Hf; discriminate Hf
  end.

Section WriteRuleViolations.
Context `{Node} `{Rttc} `{Anchor} `{AttrNames} `{PkValues}.

(** What the normalizer relies on of its dependencies: E_VIOLATES_RULES is
    no error of [rttc.validate] and no error of [normalizePkValue]. *)
Hypothesis validate_never_violates :
  forall t value, neverThrows "E_VIOLATES_RULES" (rttc_validate t value).
Hypothesis normalizePkValue_never_violates :
  forall pkValue t, neverThrows "E_VIOLATES_RULES" (normalizePkValue pkValue t).

Lemma neverThrows_fails_with {A : Type} (c : string) (r : Result A) :
  neverThrows c r -> ~ fails_with c r.
Proof. intros Hn (e & He & Hc). exact (Hn e He Hc). Qed.

Lemma checkAttributeName_fails (c : string) (WLM : WLModel)
  (correspondingAttrDef : option AttrDef) (attrName modelIdentity : string) :
  fails_with c (checkAttributeName WLM correspondingAttrDef attrName modelIdentity) ->
  c = "E_SHOULD_BE_IGNORED" \/ c = "E_HIGHLY_IRREGULAR".
Proof.
  unfold checkAttributeName. intros Hf.
  destruct (hasSchema WLM) as [| | [|] | | | | |]; try other_code.
  - apply fails_with_throw_if in Hf as [_ Hc]. simpl in Hc. left. congruence.
  - apply fails_with_throw_if in Hf as [_ Hc]. simpl in Hc. right. congruence.
Qed.

Lemma associatedPkTypeOf_fails (c : string) (otherModelIdentity : string) (orm : ORM) :
  fails_with c (associatedPkTypeOf otherModelIdentity orm) ->
  c = "E_MODEL_NOT_REGISTERED" \/ c = "E_ATTR_NOT_REGISTERED".
Proof.
  unfold associatedPkTypeOf. intros Hf.
  apply fails_with_bind in Hf as [Hf | (OtherWLModel & _ & Hf)].
  - destruct (getModel_inv otherModelIdentity orm) as [(WLM & _ & Hg) | (e & Hg & Hc)];
      rewrite Hg in Hf.
    + other_code.
    + apply fails_with_Throw in Hf. left. congruence.
  - apply fails_with_bind in Hf as [Hf | (pkAttrDef & _ & Hf)].
    + exact (getAttribute_fails _ _ _ _ Hf).
    + other_code.
Qed.

Lemma normalizeEachPkValue_never_violates (items : list Value) (pkType : option string) :
  ~ fails_with "E_VIOLATES_RULES" (normalizeEachPkValue items pkType).
Proof.
  induction items as [| item items IH]; simpl; intros Hf.
  - other_code.
  - apply fails_with_bind in Hf as [Hf | (normalized & _ & Hf)].
    + exact (neverThrows_fails_with _ _ (normalizePkValue_never_violates item pkType) Hf).
    + apply fails_with_bind in Hf as [Hf | (others & _ & Hf)].
      * exact (IH Hf).
      * other_code.
Qed.

Lemma normalizePkValues_never_violates (pkValues : Value) (pkType : option string) :
  ~ fails_with "E_VIOLATES_RULES" (normalizePkValues pkValues pkType).
Proof.
  unfold normalizePkValues. intros Hf. destruct pkValues; try other_code.
  apply fails_with_bind in Hf as [Hf | (normalized & _ & Hf)].
  - exact (normalizeEachPkValue_never_violates _ _ Hf).
  - other_code.
Qed.

(** C10: an E_VIOLATES_RULES error of [normalizeValueToSet] arises from the
    branch for plain attributes only: if a call fails with it, the attribute
    is declared, is not the primary key attribute, is neither a plural nor a
    singular association, and declares a ruleset.  So writes to the primary
    key attribute, to associations and to undeclared attributes never fail
    with it, whatever [validations] their definitions carry. *)
Theorem violates_rules_only_for_plain_attributes (value : Value) (attrName modelIdentity : string)
  (orm : ORM) (allowCollectionAttrs : bool) :
  fails_with "E_VIOLATES_RULES"
    (normalizeValueToSet value attrName modelIdentity orm allowCollectionAttrs) ->
  exists WLM def ruleset,
    collections orm !! modelIdentity = Some WLM /\
    attributes WLM !! attrName = Some def /\
    primaryKey WLM <> attrName /\
    isPlainAttribute def /\
    validations def = Some ruleset.
Proof.
  intros Hf.
  destruct (decide (attrName = "")) as [Hname | Hname].
  { unfold normalizeValueToSet in Hf.
    rewrite (bool_decide_eq_true_2 _ Hname) in Hf. simpl in Hf. other_code. }
  destruct (collections orm !! modelIdentity) as [WLM |] eqn:Hm.
  2: { unfold normalizeValueToSet, lookUpModel, getModel in Hf.
       rewrite (bool_decide_eq_false_2 _ Hname), Hm in Hf. simpl in Hf. other_code. }
  rewrite (normalizeValueToSet_prologue _ _ _ _ _ _ _ Hname Hm eq_refl) in Hf.
  apply fails_with_bind in Hf as [Hf | ([] & _ & Hf)].
  { apply checkAttributeName_fails in Hf. other_code. }
  apply fails_with_bind in Hf as [Hf | ([] & _ & Hf)].
  { apply fails_with_throw_if in Hf. other_code. }
  destruct (attributes WLM !! attrName) as [def |] eqn:Ha.
  2: { destruct (neverThrows_fails_with _ _ (validate_never_violates _ _) Hf). }
  exists WLM, def.
  destruct (bool_decide (primaryKey WLM = attrName)) eqn:Hpk.
  { (* the primary key attribute *)
    unfold setPrimaryKey in Hf.
    apply fails_with_try_catch in Hf as (e & He & Hf).
    apply fails_with_rethrow_code in Hf as [[_ Hc] | [_ Hc]].
    - other_code.
    - destruct (normalizePkValue_never_violates _ _ e He Hc). }
  apply bool_decide_eq_false in Hpk.
  destruct (truthy (collection def)) as [otherModelIdentity |] eqn:Hcoll.
  { (* a plural association *)
    unfold setPluralAssociation in Hf.
    apply fails_with_bind in Hf as [Hf | ([] & _ & Hf)].
    { apply fails_with_throw_if in Hf. other_code. }
    apply fails_with_try_catch in Hf as (e & He & Hf).
    apply fails_with_rethrow_code in Hf as [[_ Hc] | [_ Hc]]; [other_code |].
    assert (Hbody : fails_with "E_VIOLATES_RULES"
                      (associatedPkType ← associatedPkTypeOf otherModelIdentity orm;
                       normalizePkValues value associatedPkType)).
    { exists e. split; assumption. }
    apply fails_with_bind in Hbody as [Hbody | (pkType & _ & Hbody)].
    - apply associatedPkTypeOf_fails in Hbody. other_code.
    - destruct (normalizePkValues_never_violates _ _ Hbody). }
  destruct (truthy (model def)) as [otherModelIdentity |] eqn:Hmodel.
  { (* a singular association *)
    unfold setSingularAssociation in Hf.
    destruct (isNull value).
    - apply fails_with_bind in Hf as [Hf | ([] & _ & Hf)].
      + apply fails_with_throw_if in Hf. other_code.
      + other_code.
    - apply fails_with_try_catch in Hf as (e & He & Hf).
      apply fails_with_rethrow_code in Hf as [[_ Hc] | [_ Hc]]; [other_code |].
      assert (Hbody : fails_with "E_VIOLATES_RULES"
                        (associatedPkType ← associatedPkTypeOf otherModelIdentity orm;
                         normalizePkValue value associatedPkType)).
      { exists e. split; assumption. }
      apply fails_with_bind in Hbody as [Hbody | (pkType & _ & Hbody)].
      + apply associatedPkTypeOf_fails in Hbody. other_code.
      + destruct (neverThrows_fails_with _ _ (normalizePkValue_never_violates _ _) Hbody). }
  (* a plain attribute *)
  unfold setMiscellaneous in Hf.
  apply fails_with_bind in Hf as [Hf | ([] & Htype & Hf)].
  { apply fails_with_assert in Hf. other_code. }
  assert (Htyped : isNonEmptyString (type def) = true).
  { destruct (isNonEmptyString (type def)); [reflexivity | discriminate Htype]. }
  apply fails_with_bind in Hf as [Hf | ([] & _ & Hf)].
  { apply fails_with_throw_if in Hf. other_code. }
  apply fails_with_bind in Hf as [Hf | ([] & _ & Hf)].
  { apply fails_with_throw_if in Hf. other_code. }
  apply fails_with_bind in Hf as [Hf | (value' & _ & Hf)].
  { destruct (neverThrows_fails_with _ _ (validate_never_violates _ _) Hf). }
  apply fails_with_bind in Hf as [Hf | ([] & _ & Hf)]; [| other_code].
  unfold checkForRuleViolations in Hf.
  destruct (validations def) as [ruleset |] eqn:Hrules; [| other_code].
  exists ruleset. repeat split; assumption.
Qed.

End WriteRuleViolations.

(** ** The reference implementations meet the contracts *)

Lemma typeTagOf_json (t : option string) : typeTagOf t = TJson -> t = Some "json".
Proof. unfold typeTagOf. repeat case_bool_decide; congruence. Qed.

Lemma typeTagOf_ref (t : option string) : typeTagOf t = TRef -> t = Some "ref".
Proof. unfold typeTagOf. repeat case_bool_decide; congruence. Qed.

Lemma refValidate_projection (t : option string) (value value' : Value) :
  refValidate t value = Return value' -> refValidate t value' = Return value'.
Proof.
  unfold refValidate. destruct (typeTagOf t).
  - destruct value; intros Hv; simplify_eq; reflexivity.
  - destruct value; intros Hv; simplify_eq; try reflexivity.
    destruct (parseNumber s); simplify_eq. reflexivity.
  - destruct value; intros Hv; simplify_eq; try reflexivity.
    repeat case_bool_decide; simplify_eq; reflexivity.
  - destruct (isJsonCompatible value) eqn:Hj; intros Hv; simplify_eq.
    rewrite Hj. reflexivity.
  - destruct (isUndefined value) eqn:Hu; intros Hv; simplify_eq.
    rewrite Hu. reflexivity.
  - discriminate.
Qed.

Lemma refValidate_undefined (t : option string) (value' : Value) :
  refValidate t VUndefined <> Return value'.
Proof. unfold refValidate. destruct (typeTagOf t); discriminate. Qed.

Lemma refValidate_null (t : option string) (value' : Value) :
  refValidate t VNull = Return value' -> isNeitherJsonNorRef t = false.
Proof.
  unfold refValidate, isNeitherJsonNorRef.
  destruct (typeTagOf t) eqn:Htag; try discriminate; intros _.
  - rewrite (typeTagOf_json _ Htag). reflexivity.
  - rewrite (typeTagOf_ref _ Htag). reflexivity.
Qed.

Lemma refValidate_empty_string (t : option string) (value : Value) :
  refValidate t value = Return (VString "") -> value = VString "".
Proof.
  unfold refValidate. destruct (typeTagOf t).
  - destruct value; intros Hv; simplify_eq; try reflexivity.
    destruct b; discriminate.
  - destruct value; intros Hv; simplify_eq.
    destruct (parseNumber s); discriminate.
  - destruct value; intros Hv; simplify_eq.
    repeat case_bool_decide; discriminate.
  - destruct (isJsonCompatible value); intros Hv; simplify_eq. reflexivity.
  - destruct (isUndefined value); intros Hv; simplify_eq. reflexivity.
  - discriminate.
Qed.

Lemma refValidate_throws (t : option string) (value : Value) (e : JsError) :
  refValidate t value = Throw e -> code e = Some "E_INVALID" \/ code e = None.
Proof.
  unfold refValidate. destruct (typeTagOf t).
  - destruct value; intros Hv; simplify_eq; left; reflexivity.
  - destruct value; intros Hv; simplify_eq; try (left; reflexivity).
    destruct (parseNumber s); simplify_eq. left. reflexivity.
  - destruct value; intros Hv; simplify_eq; try (left; reflexivity).
    repeat case_bool_decide; simplify_eq. left. reflexivity.
  - destruct (isJsonCompatible value); intros Hv; simplify_eq. left. reflexivity.
  - destruct (isUndefined value); intros Hv; simplify_eq. left. reflexivity.
  - intros Hv. simplify_eq. right. reflexivity.
Qed.

Lemma refValidate_never_violates (t : option string) (value : Value) :
  neverThrows "E_VIOLATES_RULES" (refValidate t value).
Proof.
  intros e He Hc. destruct (refValidate_throws _ _ _ He) as [Hc' | Hc']; congruence.
Qed.

Lemma refNormalizePkValue_never_violates (pkValue : Value) (t : option string) :
  neverThrows "E_VIOLATES_RULES" (refNormalizePkValue pkValue t).
Proof.
  intros e. unfold refNormalizePkValue.
  destruct (refValidate t pkValue) as [normalized | e'] eqn:Hvalid.
  - destruct normalized; try discriminate.
    destruct (isWholeNumber q); intros He; simplify_eq. discriminate.
  - destruct (has_code "E_INVALID" e') eqn:Hcode; intros He; simplify_eq.
    + discriminate.
    + apply (refValidate_never_violates _ _ _ Hvalid).
Qed.

(** ** The example ORM: the properties at work *)

Lemma Pet_declares (attrName : string) (def : AttrDef) :
  attrName <> "" ->
  attributes Pet !! attrName = Some def ->
  Declared (H := refAttrNames) exampleOrm "pet" attrName Pet def.
Proof. intros Hname Ha. split; [exact Hname | reflexivity | exact Ha | left; reflexivity]. Defined.

Lemma User_declares (attrName : string) (def : AttrDef) :
  attrName <> "" ->
  attributes User !! attrName = Some def ->
  Declared (H := refAttrNames) exampleOrm "user" attrName User def.
Proof. intros Hname Ha. split; [exact Hname | reflexivity | exact Ha | left; reflexivity]. Defined.

Lemma Pet_pk_is_number : hasPkType exampleOrm "pet" (Some "number").
Proof. exists Pet, (attr "number"). repeat split; reflexivity. Defined.

Lemma User_pk_is_number : hasPkType exampleOrm "user" (Some "number").
Proof. exists User, (attr "number"). repeat split; reflexivity. Defined.

(** C1, at work: [null] as a filter on a plain attribute, on a singular
    association and on an attribute that is not declared; and the failed
    assertion for a plural association. *)
Lemma null_filter_is_always_allowed_witness :
  refNormalizeVsAttribute VNull "name" "pet" exampleOrm = Return VNull /\
  refNormalizeVsAttribute VNull "owner" "pet" exampleOrm = Return VNull /\
  refNormalizeVsAttribute VNull "extra" "widget" exampleOrm = Return VNull /\
  exists e, refNormalizeVsAttribute (VArray []) "pets" "user" exampleOrm = Throw e /\
            errName e = "AssertionError".
Proof.
  repeat apply conj.
  - apply (proj1 (@null_filter_is_always_allowed refNode refRttc "name" "pet" exampleOrm Pet
                    eq_refl)).
    right. exists (attr "string"). split; reflexivity.
  - apply (proj1 (@null_filter_is_always_allowed refNode refRttc "owner" "pet" exampleOrm Pet
                    eq_refl)).
    right. exists (singular "user" false). split; reflexivity.
  - apply (proj1 (@null_filter_is_always_allowed refNode refRttc "extra" "widget" exampleOrm
                    Widget eq_refl)).
    left. reflexivity.
  - apply (proj2 (@null_filter_is_always_allowed refNode refRttc "pets" "user" exampleOrm User
                    eq_refl) (plural "pet") "pet" (VArray [])).
    + reflexivity.
    + reflexivity.
    + discriminate.
Defined.

(** [null] as a filter on a plural association of a registered model: the
    call does not return [null], it fails the assertion. *)
Lemma null_filter_on_plural_association_fails :
  attributes User !! "pets" = Some (plural "pet") /\
  isPluralAssociation (plural "pet") "pet" /\
  refNormalizeVsAttribute VNull "pets" "user" exampleOrm =
    Throw (AssertionError
      "Should not call this internal utility on a plural association (i.e. `collection` attribute).").
Proof. repeat split; reflexivity. Qed.

(** C2, at work: [null] for the optional string attribute [name]. *)
Lemma null_for_plain_attribute_witness :
  refNormalizeValueToSet VNull "name" "pet" exampleOrm false =
    Throw (@E_INVALID_null refNode refRttc "name" (attr "string")) /\
  code (@E_INVALID_null refNode refRttc "name" (attr "string")) = Some "E_INVALID" /\
  @getBaseValuePhrase refNode refRttc (attr "string") = "`''` (empty string)".
Proof.
  assert (Hdecl : Declared (H := refAttrNames) exampleOrm "pet" "name" Pet (attr "string")).
  { apply Pet_declares; [discriminate | reflexivity]. }
  assert (Hplain : isPlainAttribute (attr "string")).
  { repeat split; reflexivity. }
  destruct (@null_for_plain_attribute refNode refRttc refAnchor refAttrNames refPkValues
              "name" "pet" exampleOrm false Pet (attr "string")
              Hdecl ltac:(discriminate) Hplain eq_refl)
    as [Hoptional _].
  destruct (Hoptional eq_refl) as (Hrun & Hcode & Hstring & _).
  exact (conj Hrun (conj Hcode (Hstring eq_refl))).
Defined.

(** [null] for the required number attribute [age]: the error is the type
    mismatch of the type validator, not the error for [null]. *)
Lemma null_for_required_attribute_is_a_type_mismatch :
  attributes User !! "age" = Some (attrRequired "number") /\
  isNeitherJsonNorRef (type (attrRequired "number")) = true /\
  refNormalizeValueToSet VNull "age" "user" exampleOrm false = Throw (typeMismatch "number") /\
  message (typeMismatch "number") = "Invalid value: expecting a number." /\
  message (typeMismatch "number") <>
    message (@E_INVALID_null refNode refRttc "age" (attrRequired "number")).
Proof. repeat split; try reflexivity. discriminate. Qed.

(** C5, at work, for the plural association [pets] of the model user. *)
Lemma plural_association_gate_witness :
  fails_with "E_HIGHLY_IRREGULAR"
    (refNormalizeValueToSet (VArray [VString "1"; VString "2"]) "pets" "user" exampleOrm false) /\
  refNormalizeValueToSet (VArray [VString "1"; VString "2"]) "pets" "user" exampleOrm true =
    Return (VArray [VNumber (numberOfZ 1); VNumber (numberOfZ 2)]) /\
  fails_with "E_HIGHLY_IRREGULAR"
    (refNormalizeValueToSet (VArray [VString "1"; VString "two"]) "pets" "user" exampleOrm true).
Proof.
  assert (Hdecl : Declared (H := refAttrNames) exampleOrm "user" "pets" User (plural "pet")).
  { apply User_declares; [discriminate | reflexivity]. }
  repeat apply conj.
  - apply (proj1 (@plural_association_gate refNode refRttc refAnchor refAttrNames refPkValues
                    (VArray [VString "1"; VString "2"]) "pets" "user" exampleOrm User
                    (plural "pet") "pet" Hdecl ltac:(discriminate) eq_refl)).
    discriminate.
  - apply (proj2 (@plural_association_gate refNode refRttc refAnchor refAttrNames refPkValues
                    VNull "pets" "user" exampleOrm User
                    (plural "pet") "pet" Hdecl ltac:(discriminate) eq_refl)
             (Some "number") [VString "1"; VString "2"] Pet_pk_is_number).
    repeat constructor.
  - apply (proj2 (@plural_association_gate refNode refRttc refAnchor refAttrNames refPkValues
                    VNull "pets" "user" exampleOrm User
                    (plural "pet") "pet" Hdecl ltac:(discriminate) eq_refl)
             (Some "number") [VString "1"; VString "two"] Pet_pk_is_number).
    + constructor; [left; eexists; reflexivity |].
      constructor; [right; eexists; split; reflexivity |].
      constructor.
    + right. left. eexists. split; reflexivity.
Defined.

(** The value [undefined] for a plural association, collection attributes
    not allowed: the normalizer fails with E_SHOULD_BE_IGNORED, not with
    E_HIGHLY_IRREGULAR. *)
Lemma undefined_for_plural_association_is_ignored :
  attributes User !! "pets" = Some (plural "pet") /\
  isPluralAssociation (plural "pet") "pet" /\
  refNormalizeValueToSet VUndefined "pets" "user" exampleOrm false =
    Throw E_SHOULD_BE_IGNORED_undefined /\
  code E_SHOULD_BE_IGNORED_undefined = Some "E_SHOULD_BE_IGNORED".
Proof. repeat split; reflexivity. Qed.

(** C6, at work: [owner] is optional, [vet] is required. *)
Lemma singular_association_null_witness :
  refNormalizeValueToSet VNull "owner" "pet" exampleOrm false = Return VNull /\
  fails_with "E_HIGHLY_IRREGULAR" (refNormalizeValueToSet VNull "vet" "pet" exampleOrm false).
Proof.
  split.
  - apply (proj2 (@singular_association_null refNode refRttc refAnchor refAttrNames refPkValues
                    "owner" "pet" exampleOrm false Pet (singular "user" false) "user"
                    (Pet_declares "owner" _ ltac:(discriminate) eq_refl)
                    ltac:(discriminate) (conj eq_refl eq_refl))).
    reflexivity.
  - apply (proj1 (@singular_association_null refNode refRttc refAnchor refAttrNames refPkValues
                    "vet" "pet" exampleOrm false Pet (singular "user" true) "user"
                    (Pet_declares "vet" _ ltac:(discriminate) eq_refl)
                    ltac:(discriminate) (conj eq_refl eq_refl))).
    reflexivity.
Defined.

(** C7, at work: [owner] is a singular association with the model user,
    whose primary key is a number.  The fractional number 3.3 is a usable
    filter; a string that is no number is not. *)
Lemma singular_association_filter_is_loosely_validated_witness :
  refNormalizeVsAttribute (VNumber (Q2Qc (33 # 10))) "owner" "pet" exampleOrm =
    Return (VNumber (Q2Qc (33 # 10))) /\
  fails_with "E_VALUE_NOT_USABLE"
    (refNormalizeVsAttribute (VString "abc") "owner" "pet" exampleOrm).
Proof.
  split.
  - apply (proj1 (@singular_association_filter_is_loosely_validated refNode refRttc
                    (VNumber (Q2Qc (33 # 10))) "owner" "pet" exampleOrm Pet
                    (singular "user" false) "user" (Some "number")
                    eq_refl eq_refl (conj eq_refl eq_refl) User_pk_is_number
                    ltac:(discriminate) ltac:(discriminate) ltac:(discriminate))).
    reflexivity.
  - apply (proj2 (@singular_association_filter_is_loosely_validated refNode refRttc
                    (VString "abc") "owner" "pet" exampleOrm Pet
                    (singular "user" false) "user" (Some "number")
                    eq_refl eq_refl (conj eq_refl eq_refl) User_pk_is_number
                    ltac:(discriminate) ltac:(discriminate)
                    ltac:(intros e He; injection He as <-; reflexivity))).
    eexists. reflexivity.
Defined.

(** The same fractional number is no value to set for [owner]: values to
    set go through [normalizePkValue]. *)
Lemma fractional_foreign_key_is_not_set :
  fails_with "E_HIGHLY_IRREGULAR"
    (refNormalizeValueToSet (VNumber (Q2Qc (33 # 10))) "owner" "pet" exampleOrm false).
Proof. eexists. split; reflexivity. Qed.

(** C8, at work: the ruleset of [name] in the model user asks for at least
    five and at most one character; the value is two characters long and
    violates both rules: the error carries the two violations. *)
Lemma rule_violations_are_all_reported_witness :
  exists e,
    refNormalizeValueToSet (VString "ab") "name" "user" exampleOrm false = Throw e /\
    code e = Some "E_VIOLATES_RULES" /\
    ruleViolations e =
      Some [ {| rule := "minLength"; rv_message := "Value violates the `minLength` rule." |};
             {| rule := "maxLength"; rv_message := "Value violates the `maxLength` rule." |} ].
Proof.
  assert (Hdecl : Declared (H := refAttrNames) exampleOrm "user" "name" User
                    (attrWithRules "string"
                       [("minLength", VNumber (numberOfZ 5)); ("maxLength", VNumber (numberOfZ 1))])).
  { apply User_declares; [discriminate | reflexivity]. }
  assert (Hplain : isPlainAttribute
                     (attrWithRules "string"
                        [("minLength", VNumber (numberOfZ 5)); ("maxLength", VNumber (numberOfZ 1))])).
  { repeat split; reflexivity. }
  refine (proj2 (proj2 (@rule_violations_are_all_reported refNode refRttc refAnchor refAttrNames
                          refPkValues (VString "ab") (VString "ab") "name" "user" exampleOrm false User _ _
                          Hdecl ltac:(discriminate) Hplain eq_refl ltac:(discriminate)
                          eq_refl eq_refl eq_refl)
                   ltac:(discriminate) _ eq_refl) ltac:(discriminate)).
Defined.

(** C9, at work: the string 42 for the number attribute [age] is
    normalized to the number 42, which is normalized to itself. *)
Lemma normalizeValueToSet_idempotent_witness :
  refNormalizeValueToSet (VNumber (numberOfZ 42)) "age" "user" exampleOrm false =
    Return (VNumber (numberOfZ 42)).
Proof.
  apply (@normalizeValueToSet_idempotent refNode refRttc refAnchor refAttrNames refPkValues
           refValidate_projection refValidate_undefined refValidate_null
           refValidate_empty_string
           (VString "42") (VNumber (numberOfZ 42)) "age" "user" exampleOrm false User
           (attrRequired "number")).
  - apply User_declares; [discriminate | reflexivity].
  - discriminate.
  - repeat split; reflexivity.
  - reflexivity.
Defined.

(** C10, at work: the failure with E_VIOLATES_RULES above is the failure
    of a write to a plain attribute with a ruleset. *)
Lemma violates_rules_only_for_plain_attributes_witness :
  exists WLM def ruleset,
    collections exampleOrm !! "user" = Some WLM /\
    attributes WLM !! "name" = Some def /\
    primaryKey WLM <> "name" /\
    isPlainAttribute def /\
    validations def = Some ruleset.
Proof.
  apply (@violates_rules_only_for_plain_attributes refNode refRttc refAnchor refAttrNames
           refPkValues refValidate_never_violates refNormalizePkValue_never_violates
           (VString "ab") "name" "user" exampleOrm false).
  eexists. split; reflexivity.
Defined.

(* ===================================================================== *)
(** * Further properties of normalizeValueToSet()                         *)
(* ===================================================================== *)

Section WriteFurther.
Context `{Node} `{Rttc} `{Anchor} `{AttrNames} `{PkValues}.

Lemma try_catch_rethrow_Return {A : Type} (c : string) (wrap : JsError -> JsError)
  (body : Result A) (a : A) :
  try_catch body (rethrow_code c wrap) = Return a <-> body = Return a.
Proof.
  destruct body as [a' | e]; simpl.
  - reflexivity.
  - unfold rethrow_code. destruct (has_code c e); split; discriminate.
Qed.

Lemma try_catch_rethrow_fails {A : Type} (c c' : string) (wrap : JsError -> JsError)
  (body : Result A) :
  fails_with c body ->
  (forall e, code (wrap e) = Some c') ->
  fails_with c' (try_catch body (rethrow_code c wrap)).
Proof.
  intros (e & -> & Hc) Hwrap. simpl. unfold rethrow_code.
  apply has_code_true in Hc. rewrite Hc. apply fails_with_Throw. apply Hwrap.
Qed.

(** X1: for every plain attribute that is an auto-created-at or an
    auto-updated-at timestamp, setting the empty string fails with
    E_HIGHLY_IRREGULAR, whatever the declared type of the attribute and
    whatever [rttc.validate] would say of the empty string. *)
Theorem empty_string_for_timestamp_is_irregular (attrName modelIdentity : string) (orm : ORM)
  (allowCollectionAttrs : bool) (WLM : WLModel) (def : AttrDef) :
  Declared orm modelIdentity attrName WLM def ->
  primaryKey WLM <> attrName ->
  isPlainAttribute def ->
  autoCreatedAt def || autoUpdatedAt def = true ->
  fails_with "E_HIGHLY_IRREGULAR"
    (normalizeValueToSet (VString "") attrName modelIdentity orm allowCollectionAttrs).
Proof.
  intros Hdecl Hpk Hplain Hauto.
  rewrite (normalizeValueToSet_plain _ _ _ _ _ _ _ Hdecl Hpk Hplain) by discriminate.
  simpl isEmptyString. rewrite Hauto. simpl.
  apply fails_with_Throw. reflexivity.
Qed.

(** X2: a defined value for the primary key attribute is normalized by
    [normalizePkValue] against the declared type, whatever else the
    definition of the attribute holds (no check for [null], no
    [rttc.validate], no rules): the normalizer returns exactly what
    [normalizePkValue] returns, and a value it rejects with
    E_INVALID_PK_VALUE fails with E_HIGHLY_IRREGULAR. *)
Theorem primary_key_is_normalized_as_pk (value : Value) (attrName modelIdentity : string)
  (orm : ORM) (allowCollectionAttrs : bool) (WLM : WLModel) (def : AttrDef) :
  Declared orm modelIdentity attrName WLM def ->
  primaryKey WLM = attrName ->
  value <> VUndefined ->
  (forall value',
     normalizeValueToSet value attrName modelIdentity orm allowCollectionAttrs = Return value' <->
     normalizePkValue value (type def) = Return value') /\
  (isInvalidPk (type def) value ->
   fails_with "E_HIGHLY_IRREGULAR"
     (normalizeValueToSet value attrName modelIdentity orm allowCollectionAttrs)).
Proof.
  intros Hdecl Hpk Hdef.
  rewrite (normalizeValueToSet_declared _ _ _ _ _ _ _ Hdecl Hdef).
  rewrite (bool_decide_eq_true_2 _ Hpk). unfold setPrimaryKey. split.
  - intros value'. apply try_catch_rethrow_Return.
  - intros Hinvalid. apply (try_catch_rethrow_fails _ _ _ _ Hinvalid). reflexivity.
Qed.

(** X3: a value other than [null] and [undefined] for a singular
    association is normalized by [normalizePkValue] against the type of the
    primary key of the associated model, required or not: the normalizer
    returns exactly what [normalizePkValue] returns, and a value it rejects
    with E_INVALID_PK_VALUE fails with E_HIGHLY_IRREGULAR. *)
Theorem singular_association_is_normalized_as_pk (value : Value)
  (attrName modelIdentity : string) (orm : ORM) (allowCollectionAttrs : bool)
  (WLM : WLModel) (def : AttrDef) (otherModelIdentity : string) (pkType : option string) :
  Declared orm modelIdentity attrName WLM def ->
  primaryKey WLM <> attrName ->
  isSingularAssociation def otherModelIdentity ->
  hasPkType orm otherModelIdentity pkType ->
  value <> VUndefined ->
  value <> VNull ->
  (forall value',
     normalizeValueToSet value attrName modelIdentity orm allowCollectionAttrs = Return value' <->
     normalizePkValue value pkType = Return value') /\
  (isInvalidPk pkType value ->
   fails_with "E_HIGHLY_IRREGULAR"
     (normalizeValueToSet value attrName modelIdentity orm allowCollectionAttrs)).
Proof.
  intros Hdecl Hpk [Hcoll Hmodel] Hother Hdef Hnotnull.
  rewrite (normalizeValueToSet_declared _ _ _ _ _ _ _ Hdecl Hdef).
  rewrite (bool_decide_eq_false_2 _ Hpk), Hcoll, Hmodel.
  unfold setSingularAssociation.
  assert (Hn : isNull value = false) by (destruct value; try reflexivity; congruence).
  rewrite Hn, (associatedPkTypeOf_registered _ _ _ Hother), bind_Return. split.
  - intros value'. apply try_catch_rethrow_Return.
  - intros Hinvalid. apply (try_catch_rethrow_fails _ _ _ _ Hinvalid). reflexivity.
Qed.

(** X4: for a model identity that is not registered, the two normalizers
    differ: [normalizeValueToSet] turns the E_MODEL_NOT_REGISTERED error of
    [getModel] into a consistency violation, an error with no code and the
    message of the lookup after the words Consistency violation;
    [normalizeVsAttribute] lets the error of [getModel] through, code and
    all. *)
Theorem unregistered_model_is_a_consistency_violation (value : Value)
  (attrName modelIdentity : string) (orm : ORM) (allowCollectionAttrs : bool) :
  collections orm !! modelIdentity = None ->
  exists e0,
    getModel modelIdentity orm = Throw e0 /\
    code e0 = Some "E_MODEL_NOT_REGISTERED" /\
    (attrName <> "" ->
     normalizeValueToSet value attrName modelIdentity orm allowCollectionAttrs =
       Throw (new_Error ("Consistency violation: " +:+ message e0))) /\
    (value <> VUndefined ->
     normalizeVsAttribute value attrName modelIdentity orm = Throw e0).
Proof.
  intros Hm.
  destruct (getModel_inv modelIdentity orm) as [(WLM & Hm' & _) | (e0 & Hg & Hc)];
    [congruence |].
  exists e0. repeat split; try assumption.
  - intros Hname. unfold normalizeValueToSet, lookUpModel.
    rewrite (bool_decide_eq_false_2 _ Hname), Hg. simpl. unfold rethrow_code.
    apply has_code_true in Hc. rewrite Hc. reflexivity.
  - intros Hdef. unfold normalizeVsAttribute.
    assert (Hu : isUndefined value = false) by (destruct value; try reflexivity; congruence).
    rewrite Hu, Hg. reflexivity.
Qed.

(** X5: for a registered model whose [hasSchema] is neither [true] nor
    [false], [normalizeValueToSet] fails for every value and every attribute
    name, declared or not, with a plain error that has no code (none of the
    four codes of the normalizer). *)
Theorem hasSchema_must_be_a_boolean (value : Value) (attrName modelIdentity : string)
  (orm : ORM) (allowCollectionAttrs : bool) (WLM : WLModel) :
  attrName <> "" ->
  collections orm !! modelIdentity = Some WLM ->
  hasSchema WLM <> VBoolean true ->
  hasSchema WLM <> VBoolean false ->
  exists e,
    normalizeValueToSet value attrName modelIdentity orm allowCollectionAttrs = Throw e /\
    errName e = "Error" /\ code e = None.
Proof.
  intros Hname Hm Htrue Hfalse.
  rewrite (normalizeValueToSet_prologue _ _ _ _ _ _ _ Hname Hm eq_refl).
  unfold checkAttributeName.
  destruct (hasSchema WLM) as [| | [|] | | | | |]; try congruence;
    (eexists; split; [reflexivity | split; reflexivity]).
Qed.

(** X6: the value [undefined] for a declared attribute fails with
    E_SHOULD_BE_IGNORED whatever the shape of the attribute (primary key,
    association or plain attribute) and whether or not collection attributes
    are allowed: no dependency is called. *)
Theorem undefined_is_ignored (attrName modelIdentity : string) (orm : ORM)
  (allowCollectionAttrs : bool) (WLM : WLModel) (def : AttrDef) :
  Declared orm modelIdentity attrName WLM def ->
  fails_with "E_SHOULD_BE_IGNORED"
    (normalizeValueToSet VUndefined attrName modelIdentity orm allowCollectionAttrs).
Proof.
  intros Hdecl. rewrite (normalizeValueToSet_declared_undefined _ _ _ _ _ _ Hdecl).
  apply fails_with_Throw. reflexivity.
Qed.

End WriteFurther.

(* ===================================================================== *)
(** * Further properties of normalizeVsAttribute()                        *)
(* ===================================================================== *)

Section FilterFurther.
Context `{Node} `{Rttc}.

(** The outcome of a validation whose E_INVALID is thrown again as
    E_VALUE_NOT_USABLE, when E_INVALID is the one failure of the validation. *)
Lemma validated_or_not_usable (t : option string) (value : Value) (wrap : JsError -> JsError) :
  (forall e, rttc_validate t value = Throw e -> code e = Some "E_INVALID") ->
  (forall e, code (wrap e) = Some "E_VALUE_NOT_USABLE") ->
  (forall value',
     try_catch (rttc_validate t value) (rethrow_code "E_INVALID" wrap) = Return value' <->
     rttc_validate t value = Return value') /\
  (fails_with "E_VALUE_NOT_USABLE"
     (try_catch (rttc_validate t value) (rethrow_code "E_INVALID" wrap)) <->
   exists e, rttc_validate t value = Throw e).
Proof.
  intros Hcontract Hwrap.
  destruct (rttc_validate t value) as [value1 | e] eqn:Hvalid; simpl.
  - split; [intros value'; reflexivity |].
    split; [intros Hf; destruct (fails_with_Return _ _ Hf) | intros (e & He); discriminate].
  - unfold rethrow_code.
    pose proof (Hcontract e eq_refl) as Hc. apply has_code_true in Hc. rewrite Hc.
    split; [intros value'; split; discriminate |].
    split; [intros _; exists e; reflexivity | intros _; apply fails_with_Throw, Hwrap].
Qed.


(** X8: a filter value other than [null] for a plain attribute, the
    primary key attribute included, is validated against the declared type
    of the attribute with [rttc.validate], and nothing else of the
    definition plays a part ([required], the timestamp flags and the ruleset
    are not looked at): the normalizer returns what the validation returns
    and fails with E_VALUE_NOT_USABLE exactly when it fails. *)
Theorem plain_filter_is_validated_against_type (value : Value)
  (attrName modelIdentity : string) (orm : ORM) (WLM : WLModel) (def : AttrDef) :
  collections orm !! modelIdentity = Some WLM ->
  attributes WLM !! attrName = Some def ->
  isPlainAttribute def ->
  value <> VUndefined ->
  value <> VNull ->
  (forall e, rttc_validate (type def) value = Throw e -> code e = Some "E_INVALID") ->
  (forall value', normalizeVsAttribute value attrName modelIdentity orm = Return value' <->
                  rttc_validate (type def) value = Return value') /\
  (fails_with "E_VALUE_NOT_USABLE" (normalizeVsAttribute value attrName modelIdentity orm) <->
   exists e, rttc_validate (type def) value = Throw e).
Proof.
  intros Hm Ha (Hcoll & Hmodel & Htype) Hdef Hnotnull Hcontract.
  rewrite (normalizeVsAttribute_registered _ _ _ _ _ Hm Hdef), Ha.
  assert (Hc : isTruthy (collection def) = false) by (unfold isTruthy; rewrite Hcoll; reflexivity).
  rewrite Hc. simpl assert. rewrite bind_Return.
  assert (Hn : isNull value = false) by (destruct value; try reflexivity; congruence).
  rewrite Hn, Hmodel, Htype. simpl assert. rewrite bind_Return.
  apply (validated_or_not_usable _ _ _ Hcontract). reflexivity.
Qed.

(** X12: an E_INVALID error never leaves [normalizeVsAttribute]: in each
    of its three branches the E_INVALID of [rttc.validate] is caught and
    thrown again as E_VALUE_NOT_USABLE, and nothing else throws it. *)
Theorem filter_never_fails_with_E_INVALID (value : Value) (attrName modelIdentity : string)
  (orm : ORM) :
  ~ fails_with "E_INVALID" (normalizeVsAttribute value attrName modelIdentity orm).
Proof.
  unfold normalizeVsAttribute. intros Hf.
  apply fails_with_bind in Hf as [Hf | ([] & _ & Hf)].
  { apply fails_with_assert in Hf. destruct Hf as [_ Hf]. discriminate Hf. }
  apply fails_with_bind in Hf as [Hf | (WLM & _ & Hf)].
  { destruct (getModel_inv modelIdentity orm) as [(WLM & _ & Hg) | (e & Hg & Hc)];
      rewrite Hg in Hf.
    - destruct (fails_with_Return _ _ Hf).
    - apply fails_with_Throw in Hf. congruence. }
  cbv zeta in Hf.
  apply fails_with_bind in Hf as [Hf | ([] & _ & Hf)].
  { destruct (attributes WLM !! attrName) as [def |].
    - apply fails_with_assert in Hf. destruct Hf as [_ Hf]. discriminate Hf.
    - destruct (fails_with_Return _ _ Hf). }
  destruct (isNull value); [destruct (fails_with_Return _ _ Hf) |].
  assert (Hcaught : forall t wrap,
            (forall e, code (wrap e) = Some "E_VALUE_NOT_USABLE") ->
            ~ fails_with "E_INVALID"
                (try_catch (rttc_validate t value) (rethrow_code "E_INVALID" wrap))).
  { intros t wrap Hwrap Hf'.
    apply fails_with_try_catch in Hf' as (e & _ & Hf').
    apply fails_with_rethrow_code in Hf' as [[_ Hc] | [Hc Hc']].
    - rewrite Hwrap in Hc. discriminate Hc.
    - contradiction. }
  destruct (attributes WLM !! attrName) as [def |].
  - destruct (truthy (model def)) as [otherModelIdentity |].
    + apply fails_with_bind in Hf as [Hf | (pkType & _ & Hf)].
      * destruct (associatedPkTypeOf_fails _ _ _ Hf) as [Hc | Hc]; discriminate Hc.
      * apply Hcaught in Hf; [exact Hf | reflexivity].
    + apply fails_with_bind in Hf as [Hf | ([] & _ & Hf)].
      * apply fails_with_assert in Hf. destruct Hf as [_ Hf]. discriminate Hf.
      * apply Hcaught in Hf; [exact Hf | reflexivity].
  - apply Hcaught in Hf; [exact Hf | reflexivity].
Qed.

End FilterFurther.

(* ===================================================================== *)
(** * The two normalizers together, and validate()                        *)
(* ===================================================================== *)

Section Together.
Context `{Node} `{Rttc} `{Anchor} `{AttrNames} `{PkValues}.

(** What the properties of this section rely on of [rttc.validate]: a
    value it returns is valid as it is, and [undefined] is valid for no
    type. *)
Hypothesis validate_projection :
  forall t value value', rttc_validate t value = Return value' ->
                         rttc_validate t value' = Return value'.
Hypothesis validate_undefined :
  forall t value', rttc_validate t VUndefined <> Return value'.

Lemma validated_is_defined (t : option string) (value value' : Value) :
  rttc_validate t value = Return value' -> value' <> VUndefined.
Proof.
  intros Hvalid ->. exact (validate_undefined _ _ (validate_projection _ _ _ Hvalid)).
Qed.


(** A value [rttc.validate] returned for the type an attribute is filtered
    by is a filter the normalizer returns as it is. *)
Lemma validated_is_a_filter (t : option string) (wrap : JsError -> JsError)
  (value value' : Value) :
  rttc_validate t value = Return value' ->
  (if isNull value' then Return value'
   else try_catch (rttc_validate t value') (rethrow_code "E_INVALID" wrap)) = Return value'.
Proof.
  intros Hvalid. destruct (isNull value'); [reflexivity |].
  rewrite (validate_projection _ _ _ Hvalid). reflexivity.
Qed.

(** X9: [normalizeVsAttribute] is idempotent, for every attribute it
    takes: applied to a value it has returned, it returns that value again. *)
Theorem normalizeVsAttribute_idempotent (value value' : Value)
  (attrName modelIdentity : string) (orm : ORM) :
  normalizeVsAttribute value attrName modelIdentity orm = Return value' ->
  normalizeVsAttribute value' attrName modelIdentity orm = Return value'.
Proof.
  intros Hrun.
  assert (Hdef : value <> VUndefined).
  { intros ->. unfold normalizeVsAttribute in Hrun. simpl in Hrun. discriminate Hrun. }
  destruct (collections orm !! modelIdentity) as [WLM |] eqn:Hm.
  2: { unfold normalizeVsAttribute, getModel in Hrun. rewrite Hm in Hrun.
       destruct value; try congruence; simpl in Hrun; discriminate Hrun. }
  rewrite (normalizeVsAttribute_registered _ _ _ _ _ Hm Hdef) in Hrun.
  assert (Hstep : forall t wrap,
            (if isNull value then Return value
             else try_catch (rttc_validate t value) (rethrow_code "E_INVALID" wrap))
              = Return value' ->
            value' <> VUndefined /\
            (if isNull value' then Return value'
             else try_catch (rttc_validate t value') (rethrow_code "E_INVALID" wrap))
              = Return value').
  { intros t wrap Hstep. destruct (isNull value) eqn:Hn.
    - injection Hstep as Heq. subst value'. rewrite Hn. split; [exact Hdef | reflexivity].
    - apply try_catch_rethrow_Return in Hstep.
      split; [exact (validated_is_defined _ _ _ Hstep) |].
      exact (validated_is_a_filter _ _ _ _ Hstep). }
  destruct (attributes WLM !! attrName) as [def |] eqn:Ha.
  - destruct (isTruthy (collection def)) eqn:Hcoll; [discriminate Hrun |].
    simpl assert in Hrun. rewrite bind_Return in Hrun.
    destruct (truthy (model def)) as [otherModelIdentity |] eqn:Hmodel.
    + destruct (isNull value) eqn:Hn.
      * injection Hrun as Heq. subst value'.
        rewrite (normalizeVsAttribute_registered _ _ _ _ _ Hm Hdef), Ha, Hcoll, Hn.
        reflexivity.
      * destruct (associatedPkTypeOf otherModelIdentity orm) as [pkType | e] eqn:Hother;
          [| discriminate Hrun].
        rewrite bind_Return in Hrun.
        destruct (Hstep pkType (notAssociatedPk attrName otherModelIdentity) Hrun)
          as [Hdef' Hagain].
        rewrite (normalizeVsAttribute_registered _ _ _ _ _ Hm Hdef'), Ha, Hcoll.
        simpl assert. rewrite bind_Return, Hmodel, Hother, bind_Return.
        destruct (isNull value'); [reflexivity | exact Hagain].
    + destruct (isNull value) eqn:Hn.
      * injection Hrun as Heq. subst value'.
        rewrite (normalizeVsAttribute_registered _ _ _ _ _ Hm Hdef), Ha, Hcoll, Hn.
        reflexivity.
      * destruct (isNonEmptyString (type def)) eqn:Htype; [| discriminate Hrun].
        simpl assert in Hrun. rewrite bind_Return in Hrun.
        destruct (Hstep (type def) notDeclaredType Hrun) as [Hdef' Hagain].
        rewrite (normalizeVsAttribute_registered _ _ _ _ _ Hm Hdef'), Ha, Hcoll.
        simpl assert. rewrite bind_Return, Hmodel, Htype.
        simpl assert. rewrite bind_Return.
        destruct (isNull value'); [reflexivity | exact Hagain].
  - rewrite bind_Return in Hrun.
    destruct (Hstep (Some "json") notJsonCompatible Hrun) as [Hdef' Hagain].
    rewrite (normalizeVsAttribute_registered _ _ _ _ _ Hm Hdef'), Ha, bind_Return.
    exact Hagain.
Qed.


End Together.

Section ValidateAndErrors.
Context `{Node} `{Rttc} `{Anchor} `{AttrNames} `{PkValues}.

(** X11: the [validate] method passes no fifth argument to the
    normalizer, so for a plural association it fails with
    E_HIGHLY_IRREGULAR for every defined value, an array of valid primary
    keys included: there is no value [validate] takes for a collection. *)
Theorem validate_rejects_plural_associations (value : Value) (attrName this_identity : string)
  (this_waterline : ORM) (WLM : WLModel) (def : AttrDef) (otherModelIdentity : string) :
  Declared this_waterline this_identity attrName WLM def ->
  primaryKey WLM <> attrName ->
  isPluralAssociation def otherModelIdentity ->
  value <> VUndefined ->
  fails_with "E_HIGHLY_IRREGULAR" (validate this_identity this_waterline attrName value).
Proof.
  intros Hdecl Hpk Hplural Hdef. unfold isPluralAssociation in Hplural.
  rewrite validate_is_normalizeValueToSet.
  rewrite (normalizeValueToSet_declared _ _ _ _ _ _ _ Hdecl Hdef).
  rewrite (bool_decide_eq_false_2 _ Hpk), Hplural.
  apply fails_with_Throw. reflexivity.
Qed.

Lemma rethrown_code_is_gone {A : Type} (c : string) (wrap : JsError -> JsError)
  (body : Result A) :
  (forall e, code (wrap e) <> Some c) ->
  ~ fails_with c (try_catch body (rethrow_code c wrap)).
Proof.
  intros Hwrap Hf.
  apply fails_with_try_catch in Hf as (e & _ & Hf).
  apply fails_with_rethrow_code in Hf as [[_ Hc] | [Hc Hc']].
  - exact (Hwrap e Hc).
  - contradiction.
Qed.

Lemma checkForRuleViolations_fails (c : string) (value : Value) (attrName : string)
  (def : AttrDef) :
  fails_with c (checkForRuleViolations value attrName def) -> c = "E_VIOLATES_RULES".
Proof.
  unfold checkForRuleViolations. intros Hf.
  destruct (validations def) as [ruleset |]; [| other_code].
  cbv zeta in Hf. destruct (negb (isNull value)); [| other_code].
  apply fails_with_bind in Hf as [Hf | (violations & _ & Hf)].
  - apply fails_with_try_catch in Hf as (e & _ & Hf). other_code.
  - apply fails_with_throw_if in Hf as [_ Hc]. simpl in Hc. congruence.
Qed.

(** X13: an E_INVALID_PK_VALUE error never leaves [normalizeValueToSet]:
    in each of the three branches that normalize primary key values it is
    caught and thrown again as E_HIGHLY_IRREGULAR.  ([rttc.validate], whose
    errors are thrown as they are, is taken not to throw this code itself.) *)
Theorem E_INVALID_PK_VALUE_is_always_caught (value : Value) (attrName modelIdentity : string)
  (orm : ORM) (allowCollectionAttrs : bool) :
  (forall t v, neverThrows "E_INVALID_PK_VALUE" (rttc_validate t v)) ->
  ~ fails_with "E_INVALID_PK_VALUE"
      (normalizeValueToSet value attrName modelIdentity orm allowCollectionAttrs).
Proof.
  intros Hrttc Hf.
  destruct (decide (attrName = "")) as [Hname | Hname].
  { unfold normalizeValueToSet in Hf.
    rewrite (bool_decide_eq_true_2 _ Hname) in Hf. simpl in Hf. other_code. }
  destruct (collections orm !! modelIdentity) as [WLM |] eqn:Hm.
  2: { unfold normalizeValueToSet, lookUpModel, getModel in Hf.
       rewrite (bool_decide_eq_false_2 _ Hname), Hm in Hf. simpl in Hf. other_code. }
  rewrite (normalizeValueToSet_prologue _ _ _ _ _ _ _ Hname Hm eq_refl) in Hf.
  apply fails_with_bind in Hf as [Hf | ([] & _ & Hf)].
  { apply checkAttributeName_fails in Hf. other_code. }
  apply fails_with_bind in Hf as [Hf | ([] & _ & Hf)].
  { apply fails_with_throw_if in Hf. other_code. }
  destruct (attributes WLM !! attrName) as [def |].
  2: { destruct Hf as (e & He & Hc). exact (Hrttc _ _ e He Hc). }
  destruct (bool_decide (primaryKey WLM = attrName)).
  { apply rethrown_code_is_gone in Hf; [exact Hf | discriminate]. }
  destruct (truthy (collection def)) as [otherModelIdentity |].
  { unfold setPluralAssociation in Hf.
    apply fails_with_bind in Hf as [Hf | ([] & _ & Hf)].
    - apply fails_with_throw_if in Hf. other_code.
    - apply rethrown_code_is_gone in Hf; [exact Hf | discriminate]. }
  destruct (truthy (model def)) as [otherModelIdentity |].
  { unfold setSingularAssociation in Hf. destruct (isNull value).
    - apply fails_with_bind in Hf as [Hf | ([] & _ & Hf)].
      + apply fails_with_throw_if in Hf. other_code.
      + other_code.
    - apply rethrown_code_is_gone in Hf; [exact Hf | discriminate]. }
  unfold setMiscellaneous in Hf.
  apply fails_with_bind in Hf as [Hf | ([] & _ & Hf)].
  { apply fails_with_assert in Hf. other_code. }
  apply fails_with_bind in Hf as [Hf | ([] & _ & Hf)].
  { apply fails_with_throw_if in Hf. other_code. }
  apply fails_with_bind in Hf as [Hf | ([] & _ & Hf)].
  { apply fails_with_throw_if in Hf. other_code. }
  apply fails_with_bind in Hf as [Hf | (value' & _ & Hf)].
  { destruct Hf as (e & He & Hc). exact (Hrttc _ _ e He Hc). }
  apply fails_with_bind in Hf as [Hf | ([] & _ & Hf)]; [| other_code].
  apply checkForRuleViolations_fails in Hf. discriminate Hf.
Qed.

(** X14: when anchor itself throws on the value of a plain attribute, the
    normalizer fails with a consistency violation: a plain error with no
    code and no [ruleViolations], whatever the code of the error anchor
    threw, so never with E_VIOLATES_RULES. *)
Theorem anchor_error_is_a_consistency_violation (value value' : Value)
  (attrName modelIdentity : string) (orm : ORM) (allowCollectionAttrs : bool)
  (WLM : WLModel) (def : AttrDef) (ruleset : Ruleset) (e0 : JsError) :
  Declared orm modelIdentity attrName WLM def ->
  primaryKey WLM <> attrName ->
  isPlainAttribute def ->
  validations def = Some ruleset ->
  value <> VUndefined ->
  isEmptyString value && (autoCreatedAt def || autoUpdatedAt def) = false ->
  isProvidingNullForIncompatibleOptionalAttr value def = false ->
  rttc_validate (type def) value = Return value' ->
  value' <> VNull ->
  anchor value' ruleset = Throw e0 ->
  exists e,
    normalizeValueToSet value attrName modelIdentity orm allowCollectionAttrs = Throw e /\
    errName e = "Error" /\ code e = None /\ ruleViolations e = None.
Proof.
  intros Hdecl Hpk Hplain Hrules Hdef Htimestamp Hnull Hvalid Hnotnull Hanchor.
  rewrite (normalizeValueToSet_plain _ _ _ _ _ _ _ Hdecl Hpk Hplain Hdef).
  rewrite Htimestamp, Hnull, Hvalid. simpl throw_if. rewrite !bind_Return.
  unfold checkForRuleViolations. rewrite Hrules.
  assert (Hn : isNull value' = false) by (destruct value'; try reflexivity; congruence).
  rewrite Hn, Hanchor. simpl.
  eexists. repeat split.
Qed.

(** X15: [null] is set on a plain attribute only if its type is json or
    ref: if [normalizeValueToSet] returns for [null], the declared type is
    one of the two.  ([rttc.validate] is taken to accept [null] for json and
    ref only, as the comment in the normalizer says of it.) *)
Theorem null_is_set_for_json_and_ref_only (value' : Value) (attrName modelIdentity : string)
  (orm : ORM) (allowCollectionAttrs : bool) (WLM : WLModel) (def : AttrDef) :
  (forall t v', rttc_validate t VNull = Return v' -> isNeitherJsonNorRef t = false) ->
  Declared orm modelIdentity attrName WLM def ->
  primaryKey WLM <> attrName ->
  isPlainAttribute def ->
  normalizeValueToSet VNull attrName modelIdentity orm allowCollectionAttrs = Return value' ->
  type def = Some "json" \/ type def = Some "ref".
Proof.
  intros Hrttc Hdecl Hpk Hplain Hrun.
  rewrite (normalizeValueToSet_plain _ _ _ _ _ _ _ Hdecl Hpk Hplain) in Hrun by discriminate.
  simpl isEmptyString in Hrun. simpl throw_if in Hrun. rewrite bind_Return in Hrun.
  destruct (isProvidingNullForIncompatibleOptionalAttr VNull def); [discriminate Hrun |].
  simpl throw_if in Hrun. rewrite bind_Return in Hrun.
  destruct (rttc_validate (type def) VNull) as [value1 | e] eqn:Hvalid; [| discriminate Hrun].
  pose proof (Hrttc _ _ Hvalid) as Htype. unfold isNeitherJsonNorRef in Htype.
  repeat case_bool_decide; auto; discriminate Htype.
Qed.

End ValidateAndErrors.

(** ** The example ORM: the further properties at work *)

Lemma refValidate_never_throws_E_INVALID_PK_VALUE (t : option string) (value : Value) :
  neverThrows "E_INVALID_PK_VALUE" (refValidate t value).
Proof.
  intros e He Hc. destruct (refValidate_throws _ _ _ He) as [Hc' | Hc']; congruence.
Qed.

(** X1, at work: [createdAt] of the model pet is an auto-created-at
    timestamp of type number. *)
Lemma empty_string_for_timestamp_is_irregular_witness :
  fails_with "E_HIGHLY_IRREGULAR"
    (refNormalizeValueToSet (VString "") "createdAt" "pet" exampleOrm false).
Proof.
  apply (@empty_string_for_timestamp_is_irregular refNode refRttc refAnchor refAttrNames
           refPkValues "createdAt" "pet" exampleOrm false Pet (attrAutoCreatedAt "number")).
  - apply Pet_declares; [discriminate | reflexivity].
  - discriminate.
  - repeat split; reflexivity.
  - reflexivity.
Defined.

(** X2, at work: [id] is the primary key of the model pet, a number. *)
Lemma primary_key_is_normalized_as_pk_witness :
  refNormalizeValueToSet (VString "123") "id" "pet" exampleOrm false =
    Return (VNumber (numberOfZ 123)) /\
  fails_with "E_HIGHLY_IRREGULAR"
    (refNormalizeValueToSet (VNumber (Q2Qc (33 # 10))) "id" "pet" exampleOrm false).
Proof.
  split.
  - apply (proj1 (@primary_key_is_normalized_as_pk refNode refRttc refAnchor refAttrNames
                    refPkValues (VString "123") "id" "pet" exampleOrm false Pet (attr "number")
                    (Pet_declares "id" _ ltac:(discriminate) eq_refl) eq_refl
                    ltac:(discriminate))).
    reflexivity.
  - apply (proj2 (@primary_key_is_normalized_as_pk refNode refRttc refAnchor refAttrNames
                    refPkValues (VNumber (Q2Qc (33 # 10))) "id" "pet" exampleOrm false Pet
                    (attr "number")
                    (Pet_declares "id" _ ltac:(discriminate) eq_refl) eq_refl
                    ltac:(discriminate))).
    eexists. split; reflexivity.
Defined.

(** X3, at work: [vet] is a required singular association with the model
    user, whose primary key is a number. *)
Lemma singular_association_is_normalized_as_pk_witness :
  refNormalizeValueToSet (VString "7") "vet" "pet" exampleOrm false =
    Return (VNumber (numberOfZ 7)) /\
  fails_with "E_HIGHLY_IRREGULAR"
    (refNormalizeValueToSet (VString "seven") "vet" "pet" exampleOrm false).
Proof.
  split.
  - apply (proj1 (@singular_association_is_normalized_as_pk refNode refRttc refAnchor
                    refAttrNames refPkValues (VString "7") "vet" "pet" exampleOrm false Pet
                    (singular "user" true) "user" (Some "number")
                    (Pet_declares "vet" _ ltac:(discriminate) eq_refl) ltac:(discriminate)
                    (conj eq_refl eq_refl) User_pk_is_number
                    ltac:(discriminate) ltac:(discriminate))).
    reflexivity.
  - apply (proj2 (@singular_association_is_normalized_as_pk refNode refRttc refAnchor
                    refAttrNames refPkValues (VString "seven") "vet" "pet" exampleOrm false Pet
                    (singular "user" true) "user" (Some "number")
                    (Pet_declares "vet" _ ltac:(discriminate) eq_refl) ltac:(discriminate)
                    (conj eq_refl eq_refl) User_pk_is_number
                    ltac:(discriminate) ltac:(discriminate))).
    eexists. split; reflexivity.
Defined.

(** X4, at work: no model ghost is registered. *)
Lemma unregistered_model_is_a_consistency_violation_witness :
  exists e0,
    getModel "ghost" exampleOrm = Throw e0 /\
    code e0 = Some "E_MODEL_NOT_REGISTERED" /\
    refNormalizeValueToSet (VString "x") "name" "ghost" exampleOrm false =
      Throw (new_Error ("Consistency violation: " +:+ message e0)) /\
    refNormalizeVsAttribute (VString "x") "name" "ghost" exampleOrm = Throw e0.
Proof.
  destruct (@unregistered_model_is_a_consistency_violation refNode refRttc refAnchor
              refAttrNames refPkValues (VString "x") "name" "ghost" exampleOrm false eq_refl)
    as (e0 & Hlookup & Hcode & Hset & Hfilter).
  exists e0.
  exact (conj Hlookup (conj Hcode (conj (Hset ltac:(discriminate))
                                        (Hfilter ltac:(discriminate))))).
Defined.

(** X5, at work: the [hasSchema] of the model draft is [undefined]. *)
Lemma hasSchema_must_be_a_boolean_witness :
  exists e,
    refNormalizeValueToSet (VNumber (numberOfZ 1)) "id" "draft" draftOrm false = Throw e /\
    errName e = "Error" /\ code e = None.
Proof.
  apply (@hasSchema_must_be_a_boolean refNode refRttc refAnchor refAttrNames refPkValues
           (VNumber (numberOfZ 1)) "id" "draft" draftOrm false Draft).
  - discriminate.
  - reflexivity.
  - discriminate.
  - discriminate.
Defined.

(** X6, at work: [undefined] for the primary key, for a plural association
    with collection attributes allowed, and for a required association. *)
Lemma undefined_is_ignored_witness :
  fails_with "E_SHOULD_BE_IGNORED"
    (refNormalizeValueToSet VUndefined "id" "pet" exampleOrm false) /\
  fails_with "E_SHOULD_BE_IGNORED"
    (refNormalizeValueToSet VUndefined "pets" "user" exampleOrm true) /\
  fails_with "E_SHOULD_BE_IGNORED"
    (refNormalizeValueToSet VUndefined "vet" "pet" exampleOrm false).
Proof.
  repeat apply conj.
  - apply (@undefined_is_ignored refNode refRttc refAnchor refAttrNames refPkValues
             "id" "pet" exampleOrm false Pet (attr "number")).
    apply Pet_declares; [discriminate | reflexivity].
  - apply (@undefined_is_ignored refNode refRttc refAnchor refAttrNames refPkValues
             "pets" "user" exampleOrm true User (plural "pet")).
    apply User_declares; [discriminate | reflexivity].
  - apply (@undefined_is_ignored refNode refRttc refAnchor refAttrNames refPkValues
             "vet" "pet" exampleOrm false Pet (singular "user" true)).
    apply Pet_declares; [discriminate | reflexivity].
Defined.


(** X8, at work: a fractional number is a usable filter on the primary key
    [id]; [age] is required, and a boolean is no number. *)
Lemma plain_filter_is_validated_against_type_witness :
  refNormalizeVsAttribute (VNumber (Q2Qc (33 # 10))) "id" "pet" exampleOrm =
    Return (VNumber (Q2Qc (33 # 10))) /\
  fails_with "E_VALUE_NOT_USABLE"
    (refNormalizeVsAttribute (VBoolean true) "age" "user" exampleOrm).
Proof.
  split.
  - apply (proj1 (@plain_filter_is_validated_against_type refNode refRttc
                    (VNumber (Q2Qc (33 # 10))) "id" "pet" exampleOrm Pet (attr "number")
                    eq_refl eq_refl (conj eq_refl (conj eq_refl eq_refl))
                    ltac:(discriminate) ltac:(discriminate) ltac:(discriminate))).
    reflexivity.
  - apply (proj2 (@plain_filter_is_validated_against_type refNode refRttc
                    (VBoolean true) "age" "user" exampleOrm User (attrRequired "number")
                    eq_refl eq_refl (conj eq_refl (conj eq_refl eq_refl))
                    ltac:(discriminate) ltac:(discriminate)
                    ltac:(intros e He; injection He as <-; reflexivity))).
    eexists. reflexivity.
Defined.

(** X9, at work: the filter 42, read from a string, on the association
    [owner]. *)
Lemma normalizeVsAttribute_idempotent_witness :
  refNormalizeVsAttribute (VNumber (numberOfZ 42)) "owner" "pet" exampleOrm =
    Return (VNumber (numberOfZ 42)).
Proof.
  apply (@normalizeVsAttribute_idempotent refNode refRttc refValidate_projection
           refValidate_undefined (VString "42") (VNumber (numberOfZ 42)) "owner" "pet"
           exampleOrm).
  reflexivity.
Defined.


(** X11, at work: [pets] of the model user, through [validate]. *)
Lemma validate_rejects_plural_associations_witness :
  fails_with "E_HIGHLY_IRREGULAR"
    (@validate refNode refRttc refAnchor refAttrNames refPkValues
       "user" exampleOrm "pets" (VArray [VNumber (numberOfZ 1)])).
Proof.
  apply (@validate_rejects_plural_associations refNode refRttc refAnchor refAttrNames
           refPkValues (VArray [VNumber (numberOfZ 1)]) "pets" "user" exampleOrm User
           (plural "pet") "pet").
  - apply User_declares; [discriminate | reflexivity].
  - discriminate.
  - reflexivity.
  - discriminate.
Defined.

(** X13, at work: an invalid primary key value. *)
Lemma E_INVALID_PK_VALUE_is_always_caught_witness :
  ~ fails_with "E_INVALID_PK_VALUE"
      (refNormalizeValueToSet (VString "seven") "id" "pet" exampleOrm false).
Proof.
  apply (@E_INVALID_PK_VALUE_is_always_caught refNode refRttc refAnchor refAttrNames
           refPkValues (VString "seven") "id" "pet" exampleOrm false).
  exact refValidate_never_throws_E_INVALID_PK_VALUE.
Defined.

(** X14, at work: the attribute [name] of the model user has a ruleset,
    and the anchor at hand throws (an error with the code E_VIOLATES_RULES,
    even). *)
Lemma anchor_error_is_a_consistency_violation_witness :
  exists e,
    @normalizeValueToSet refNode refRttc throwingAnchor refAttrNames refPkValues
      (VString "ab") "name" "user" exampleOrm false = Throw e /\
    errName e = "Error" /\ code e = None /\ ruleViolations e = None.
Proof.
  apply (@anchor_error_is_a_consistency_violation refNode refRttc throwingAnchor refAttrNames
           refPkValues (VString "ab") (VString "ab") "name" "user" exampleOrm false User
           (attrWithRules "string"
              [("minLength", VNumber (numberOfZ 5)); ("maxLength", VNumber (numberOfZ 1))])
           [("minLength", VNumber (numberOfZ 5)); ("maxLength", VNumber (numberOfZ 1))]
           (flaverr "E_VIOLATES_RULES" (new_Error "Unknown rule."))).
  - apply User_declares; [discriminate | reflexivity].
  - discriminate.
  - repeat split; reflexivity.
  - reflexivity.
  - discriminate.
  - reflexivity.
  - reflexivity.
  - reflexivity.
  - discriminate.
  - reflexivity.
Defined.

(** X15, at work: [null] is set for [meta], of type json. *)
Lemma null_is_set_for_json_and_ref_only_witness :
  type (attr "json") = Some "json" \/ type (attr "json") = Some "ref".
Proof.
  apply (@null_is_set_for_json_and_ref_only refNode refRttc refAnchor refAttrNames refPkValues
           VNull "meta" "pet" exampleOrm false Pet (attr "json") refValidate_null).
  - apply Pet_declares; [discriminate | reflexivity].
  - discriminate.
  - repeat split; reflexivity.
  - reflexivity.
Defined.

(* ===================================================================== *)
(** * What a returned value is, and when a key is to be dropped           *)
(* ===================================================================== *)

Section WriteOutcomes.
Context `{Node} `{Rttc} `{Anchor} `{AttrNames} `{PkValues}.

(** X16: a value [normalizeValueToSet] returns for a plain attribute is
    the value [rttc.validate] returned for the declared type, and, when the
    attribute has a ruleset and the value is not [null], a value for which
    anchor reports no violation. *)
Theorem value_set_is_valid_and_violates_no_rule (value value' : Value)
  (attrName modelIdentity : string) (orm : ORM) (allowCollectionAttrs : bool)
  (WLM : WLModel) (def : AttrDef) :
  Declared orm modelIdentity attrName WLM def ->
  primaryKey WLM <> attrName ->
  isPlainAttribute def ->
  normalizeValueToSet value attrName modelIdentity orm allowCollectionAttrs = Return value' ->
  rttc_validate (type def) value = Return value' /\
  (forall ruleset, validations def = Some ruleset -> value' <> VNull ->
                   anchor value' ruleset = Return []).
Proof.
  intros Hdecl Hpk Hplain Hrun.
  assert (Hdef : value <> VUndefined).
  { intros ->. rewrite (normalizeValueToSet_declared_undefined _ _ _ _ _ _ Hdecl) in Hrun.
    discriminate Hrun. }
  rewrite (normalizeValueToSet_plain _ _ _ _ _ _ _ Hdecl Hpk Hplain Hdef) in Hrun.
  destruct (isEmptyString value && (autoCreatedAt def || autoUpdatedAt def));
    [discriminate Hrun |].
  destruct (isProvidingNullForIncompatibleOptionalAttr value def); [discriminate Hrun |].
  simpl throw_if in Hrun. rewrite !bind_Return in Hrun.
  destruct (rttc_validate (type def) value) as [value1 | e]; [| discriminate Hrun].
  rewrite bind_Return in Hrun.
  destruct (checkForRuleViolations value1 attrName def) as [[] | e] eqn:Hrules;
    [| discriminate Hrun].
  rewrite bind_Return in Hrun. injection Hrun as Heq. subst value1.
  split; [reflexivity |].
  intros ruleset Hruleset Hnotnull.
  unfold checkForRuleViolations in Hrules. rewrite Hruleset in Hrules.
  assert (Hn : isNull value' = false) by (destruct value'; try reflexivity; congruence).
  rewrite Hn in Hrules. simpl in Hrules.
  destruct (anchor value' ruleset) as [violations | e]; [| discriminate Hrules].
  simpl in Hrules. destruct violations as [| violation violations]; [reflexivity |].
  rewrite bool_decide_eq_true_2 in Hrules by (simpl; lia). discriminate Hrules.
Qed.

(** X17: whether collection attributes are allowed matters for plural
    associations only: for an attribute the model does not declare, for the
    primary key attribute, and for a declared attribute with no
    [collection] key, the normalizer does the same with the flag set and
    not set. *)
Theorem allowCollectionAttrs_matters_for_plural_only (value : Value)
  (attrName modelIdentity : string) (orm : ORM) (WLM : WLModel) :
  collections orm !! modelIdentity = Some WLM ->
  (attributes WLM !! attrName = None \/
   exists def, attributes WLM !! attrName = Some def /\
               (primaryKey WLM = attrName \/ truthy (collection def) = None)) ->
  normalizeValueToSet value attrName modelIdentity orm true =
  normalizeValueToSet value attrName modelIdentity orm false.
Proof.
  intros Hm Hshape.
  destruct (decide (attrName = "")) as [Hname | Hname].
  { unfold normalizeValueToSet. rewrite (bool_decide_eq_true_2 _ Hname). reflexivity. }
  rewrite !(normalizeValueToSet_prologue _ _ _ _ _ _ _ Hname Hm eq_refl).
  destruct Hshape as [Ha | (def & Ha & [Hpk | Hcoll])]; rewrite Ha.
  - reflexivity.
  - rewrite (bool_decide_eq_true_2 _ Hpk). reflexivity.
  - rewrite Hcoll. reflexivity.
Qed.

Lemma normalizeEachPkValue_fails (c : string) (items : list Value) (pkType : option string) :
  fails_with c (normalizeEachPkValue items pkType) ->
  exists v, fails_with c (normalizePkValue v pkType).
Proof.
  induction items as [| item items IH]; simpl; intros Hf.
  - other_code.
  - apply fails_with_bind in Hf as [Hf | (normalized & _ & Hf)]; [eauto |].
    apply fails_with_bind in Hf as [Hf | (others & _ & Hf)]; [auto | other_code].
Qed.

Lemma normalizePkValues_fails (c : string) (pkValues : Value) (pkType : option string) :
  fails_with c (normalizePkValues pkValues pkType) ->
  c = "E_INVALID_PK_VALUE" \/ exists v, fails_with c (normalizePkValue v pkType).
Proof.
  unfold normalizePkValues. intros Hf.
  destruct pkValues;
    try (apply fails_with_Throw in Hf; simpl in Hf; left; congruence).
  apply fails_with_bind in Hf as [Hf | (normalized & _ & Hf)]; [| other_code].
  right. exact (normalizeEachPkValue_fails _ _ _ Hf).
Qed.

(** A caught body: the code that is caught is thrown again as
    E_HIGHLY_IRREGULAR, every other code as it is. *)
Lemma caught_pk_fails {A : Type} (c : string) (wrap : JsError -> JsError) (body : Result A) :
  (forall e, code (wrap e) = Some "E_HIGHLY_IRREGULAR") ->
  fails_with c (try_catch body (rethrow_code "E_INVALID_PK_VALUE" wrap)) ->
  c = "E_HIGHLY_IRREGULAR" \/ (c <> "E_INVALID_PK_VALUE" /\ fails_with c body).
Proof.
  intros Hwrap Hf.
  apply fails_with_try_catch in Hf as (e & He & Hf).
  apply fails_with_rethrow_code in Hf as [[_ Hc] | [Hne Hc]].
  - rewrite Hwrap in Hc. left. congruence.
  - right. split; [congruence |]. exists e. auto.
Qed.

Lemma In_codesOfBranches (c : string) :
  c = "E_HIGHLY_IRREGULAR" \/ c = "E_INVALID" \/ c = "E_VIOLATES_RULES" \/
  c = "ERR_ASSERTION" \/ c = "E_MODEL_NOT_REGISTERED" \/ c = "E_ATTR_NOT_REGISTERED" ->
  In c codesOfBranches.
Proof. unfold codesOfBranches. simpl. intuition auto. Qed.

(** The errors of the branches of the normalizer. *)
Lemma branches_fail (c : string) (value : Value) (attrName : string) (orm : ORM)
  (allow : bool) (WLM : WLModel) (correspondingAttrDef : option AttrDef) :
  fails_with c
    match correspondingAttrDef with
    | None => rttc_validate (Some "json") value
    | Some def =>
        if bool_decide (primaryKey WLM = attrName) then setPrimaryKey value def
        else
          match truthy (collection def) with
          | Some otherModelIdentity =>
              setPluralAssociation value attrName otherModelIdentity orm allow
          | None =>
              match truthy (model def) with
              | Some otherModelIdentity =>
                  setSingularAssociation value attrName def otherModelIdentity orm
              | None => setMiscellaneous value attrName def
              end
          end
    end ->
  In c codesOfBranches \/ thrownByDependency c.
Proof.
  intros Hf. destruct correspondingAttrDef as [def |].
  2: { right. left. eauto. }
  destruct (bool_decide (primaryKey WLM = attrName)).
  { apply caught_pk_fails in Hf as [-> | [Hne Hf]]; [| | reflexivity].
    - left. apply In_codesOfBranches. auto.
    - right. right. eauto. }
  destruct (truthy (collection def)) as [otherModelIdentity |].
  { unfold setPluralAssociation in Hf.
    apply fails_with_bind in Hf as [Hf | ([] & _ & Hf)].
    { apply fails_with_throw_if in Hf as [_ Hc]. simpl in Hc.
      left. apply In_codesOfBranches. left. congruence. }
    apply caught_pk_fails in Hf as [-> | [Hne Hf]]; [| | reflexivity].
    { left. apply In_codesOfBranches. auto. }
    apply fails_with_bind in Hf as [Hf | (pkType & _ & Hf)].
    - left. apply In_codesOfBranches.
      destruct (associatedPkTypeOf_fails _ _ _ Hf); auto 8.
    - apply normalizePkValues_fails in Hf as [Hc | Hf]; [contradiction |].
      right. right. destruct Hf as (v & Hf). eauto. }
  destruct (truthy (model def)) as [otherModelIdentity |].
  { unfold setSingularAssociation in Hf. destruct (isNull value).
    - apply fails_with_bind in Hf as [Hf | ([] & _ & Hf)]; [| other_code].
      apply fails_with_throw_if in Hf as [_ Hc]. simpl in Hc.
      left. apply In_codesOfBranches. left. congruence.
    - apply caught_pk_fails in Hf as [-> | [Hne Hf]]; [| | reflexivity].
      { left. apply In_codesOfBranches. auto. }
      apply fails_with_bind in Hf as [Hf | (pkType & _ & Hf)].
      + left. apply In_codesOfBranches.
        destruct (associatedPkTypeOf_fails _ _ _ Hf); auto 8.
      + right. right. eauto. }
  unfold setMiscellaneous in Hf.
  apply fails_with_bind in Hf as [Hf | ([] & _ & Hf)].
  { apply fails_with_assert in Hf as [_ ->]. left. apply In_codesOfBranches. auto 6. }
  apply fails_with_bind in Hf as [Hf | ([] & _ & Hf)].
  { apply fails_with_throw_if in Hf as [_ Hc]. simpl in Hc.
    left. apply In_codesOfBranches. left. congruence. }
  apply fails_with_bind in Hf as [Hf | ([] & _ & Hf)].
  { apply fails_with_throw_if in Hf as [_ Hc]. simpl in Hc.
    left. apply In_codesOfBranches. right. left. congruence. }
  apply fails_with_bind in Hf as [Hf | (value' & _ & Hf)].
  { right. left. eauto. }
  apply fails_with_bind in Hf as [Hf | ([] & _ & Hf)]; [| other_code].
  apply checkForRuleViolations_fails in Hf. left. apply In_codesOfBranches. auto.
Qed.

(** X18: when a key is to be dropped.  For a registered model, a call of
    [normalizeValueToSet] fails with E_SHOULD_BE_IGNORED exactly when the
    model has [hasSchema === true] and does not declare the attribute, or
    when the value is [undefined] and the name got past the check of the
    name (a declared attribute of a model with [hasSchema === true], or a
    valid attribute name for a model with [hasSchema === false]).
    ([rttc.validate] and [normalizePkValue], whose errors are thrown as they
    are, are taken not to throw this code themselves.) *)
Theorem should_be_ignored_exactly_when (value : Value) (attrName modelIdentity : string)
  (orm : ORM) (allowCollectionAttrs : bool) (WLM : WLModel) :
  (forall t v, neverThrows "E_SHOULD_BE_IGNORED" (rttc_validate t v)) ->
  (forall v t, neverThrows "E_SHOULD_BE_IGNORED" (normalizePkValue v t)) ->
  attrName <> "" ->
  collections orm !! modelIdentity = Some WLM ->
  fails_with "E_SHOULD_BE_IGNORED"
    (normalizeValueToSet value attrName modelIdentity orm allowCollectionAttrs) <->
  (hasSchema WLM = VBoolean true /\ attributes WLM !! attrName = None) \/
  (value = VUndefined /\
   ((hasSchema WLM = VBoolean true /\ is_Some (attributes WLM !! attrName)) \/
    (hasSchema WLM = VBoolean false /\ isValidAttributeName attrName = true))).
Proof.
  intros Hrttc Hpkv Hname Hm.
  rewrite (normalizeValueToSet_prologue _ _ _ _ _ _ _ Hname Hm eq_refl).
  unfold checkAttributeName. split.
  - intros Hf.
    assert (Hbranches : forall r : Result Value,
              fails_with "E_SHOULD_BE_IGNORED" r ->
              (fails_with "E_SHOULD_BE_IGNORED" r ->
               In "E_SHOULD_BE_IGNORED" codesOfBranches \/
               thrownByDependency "E_SHOULD_BE_IGNORED") ->
              False).
    { intros r Hr Hinv. destruct (Hinv Hr) as [Hin | [(t & v & Hd) | (_ & v & t & Hd)]].
      - unfold codesOfBranches in Hin. simpl in Hin.
        repeat (destruct Hin as [Hin | Hin]; [discriminate Hin |]). exact Hin.
      - exact (neverThrows_fails_with _ _ (Hrttc t v) Hd).
      - exact (neverThrows_fails_with _ _ (Hpkv v t) Hd). }
    apply fails_with_bind in Hf as [Hf | ([] & Hcheck & Hf)].
    + (* the check of the name fails *)
      left. destruct (hasSchema WLM) as [| | [|] | | | | |]; try other_code.
      * apply fails_with_throw_if in Hf as [Hnone _]. split; [reflexivity |].
        destruct (attributes WLM !! attrName) as [def |]; [| reflexivity].
        rewrite bool_decide_eq_true_2 in Hnone by eauto. discriminate Hnone.
      * apply fails_with_throw_if in Hf. other_code.
    + (* the name got past the check *)
      right. apply fails_with_bind in Hf as [Hf | ([] & _ & Hf)].
      * apply fails_with_throw_if in Hf as [Hu _].
        split; [destruct value; try discriminate Hu; reflexivity |].
        destruct (hasSchema WLM) as [| | [|] | | | | |]; try discriminate Hcheck.
        -- left. split; [reflexivity |].
           destruct (attributes WLM !! attrName) as [def |]; [eauto |].
           rewrite bool_decide_eq_false_2 in Hcheck by (intros [? ?]; discriminate).
           discriminate Hcheck.
        -- right. split; [reflexivity |].
           destruct (isValidAttributeName attrName); [reflexivity | discriminate Hcheck].
      * destruct (Hbranches _ Hf (branches_fail _ _ _ _ _ _ _)).
  - intros [[Hs Ha] | [-> [[Hs [def Ha]] | [Hs Hvalid]]]]; rewrite Hs.
    + rewrite Ha. apply fails_with_Throw. reflexivity.
    + rewrite Ha. apply fails_with_Throw. reflexivity.
    + rewrite Hvalid. apply fails_with_Throw. reflexivity.
Qed.

(** X19: the codes of [normalizeValueToSet].  When [rttc.validate] fails
    with E_INVALID or with an error that has no code, and
    [normalizePkValue] with E_INVALID_PK_VALUE or with an error that has no
    code, the code of an error of the normalizer, if it has one, is one of
    the four the normalizer documents (E_SHOULD_BE_IGNORED,
    E_HIGHLY_IRREGULAR, E_INVALID, E_VIOLATES_RULES), the code of a failed
    assertion, or the code of a failed lookup of an associated model. *)
Theorem codes_of_normalizeValueToSet (c : string) (value : Value)
  (attrName modelIdentity : string) (orm : ORM) (allowCollectionAttrs : bool) :
  (forall t v e, rttc_validate t v = Throw e ->
                 code e = Some "E_INVALID" \/ code e = None) ->
  (forall v t e, normalizePkValue v t = Throw e ->
                 code e = Some "E_INVALID_PK_VALUE" \/ code e = None) ->
  fails_with c (normalizeValueToSet value attrName modelIdentity orm allowCollectionAttrs) ->
  In c [ "E_SHOULD_BE_IGNORED"; "E_HIGHLY_IRREGULAR"; "E_INVALID"; "E_VIOLATES_RULES";
         "ERR_ASSERTION"; "E_MODEL_NOT_REGISTERED"; "E_ATTR_NOT_REGISTERED" ].
Proof.
  intros Hrttc Hpkv Hf.
  destruct (decide (attrName = "")) as [Hname | Hname].
  { unfold normalizeValueToSet in Hf.
    rewrite (bool_decide_eq_true_2 _ Hname) in Hf. simpl in Hf.
    apply fails_with_Throw in Hf. simpl in Hf. injection Hf as <-. simpl. auto 6. }
  destruct (collections orm !! modelIdentity) as [WLM |] eqn:Hm.
  2: { unfold normalizeValueToSet, lookUpModel, getModel in Hf.
       rewrite (bool_decide_eq_false_2 _ Hname), Hm in Hf. simpl in Hf. other_code. }
  rewrite (normalizeValueToSet_prologue _ _ _ _ _ _ _ Hname Hm eq_refl) in Hf.
  apply fails_with_bind in Hf as [Hf | ([] & _ & Hf)].
  { destruct (checkAttributeName_fails _ _ _ _ _ Hf) as [-> | ->]; simpl; auto. }
  apply fails_with_bind in Hf as [Hf | ([] & _ & Hf)].
  { apply fails_with_throw_if in Hf as [_ Hc]. simpl in Hc. injection Hc as <-.
    simpl. auto. }
  destruct (branches_fail _ _ _ _ _ _ _ Hf)
    as [Hin | [(t & v & e & He & Hc) | (Hne & v & t & e & He & Hc)]].
  - right. unfold codesOfBranches in Hin. simpl in Hin. simpl. intuition auto.
  - destruct (Hrttc _ _ _ He) as [Hc' | Hc']; [| congruence].
    assert (c = "E_INVALID") as -> by congruence. simpl. auto.
  - destruct (Hpkv _ _ _ He) as [Hc' | Hc']; congruence.
Qed.

End WriteOutcomes.

(* ===================================================================== *)
(** * The codes of normalizeVsAttribute()                                 *)
(* ===================================================================== *)

Section FilterCodes.
Context `{Node} `{Rttc}.

(** X20: the codes of [normalizeVsAttribute].  When [rttc.validate] fails
    with E_INVALID or with an error that has no code, the code of an error
    of the normalizer, if it has one, is E_VALUE_NOT_USABLE, the code of a
    failed assertion, or the code of a failed lookup of a model or of the
    primary key attribute of an associated model. *)
Theorem codes_of_normalizeVsAttribute (c : string) (value : Value)
  (attrName modelIdentity : string) (orm : ORM) :
  (forall t v e, rttc_validate t v = Throw e ->
                 code e = Some "E_INVALID" \/ code e = None) ->
  fails_with c (normalizeVsAttribute value attrName modelIdentity orm) ->
  In c [ "E_VALUE_NOT_USABLE"; "ERR_ASSERTION"; "E_MODEL_NOT_REGISTERED";
         "E_ATTR_NOT_REGISTERED" ].
Proof.
  intros Hrttc Hf. unfold normalizeVsAttribute in Hf.
  assert (Hassert : forall cond msg, fails_with c (assert cond msg) ->
            In c [ "E_VALUE_NOT_USABLE"; "ERR_ASSERTION"; "E_MODEL_NOT_REGISTERED";
                   "E_ATTR_NOT_REGISTERED" ]).
  { intros cond msg Ha. apply fails_with_assert in Ha as [_ ->]. simpl. auto. }
  assert (Hcaught : forall t wrap,
            (forall e, code (wrap e) = Some "E_VALUE_NOT_USABLE") ->
            fails_with c (try_catch (rttc_validate t value) (rethrow_code "E_INVALID" wrap)) ->
            In c [ "E_VALUE_NOT_USABLE"; "ERR_ASSERTION"; "E_MODEL_NOT_REGISTERED";
                   "E_ATTR_NOT_REGISTERED" ]).
  { intros t wrap Hwrap Hf'.
    apply fails_with_try_catch in Hf' as (e & He & Hf').
    apply fails_with_rethrow_code in Hf' as [[_ Hc] | [Hne Hc]].
    - rewrite Hwrap in Hc. injection Hc as <-. simpl. auto.
    - destruct (Hrttc _ _ _ He); congruence. }
  apply fails_with_bind in Hf as [Hf | ([] & _ & Hf)]; [exact (Hassert _ _ Hf) |].
  apply fails_with_bind in Hf as [Hf | (WLM & _ & Hf)].
  { destruct (getModel_inv modelIdentity orm) as [(WLM & _ & Hg) | (e & Hg & Hc)];
      rewrite Hg in Hf.
    - destruct (fails_with_Return _ _ Hf).
    - apply fails_with_Throw in Hf. assert (c = "E_MODEL_NOT_REGISTERED") as -> by congruence.
      simpl. auto. }
  cbv zeta in Hf.
  apply fails_with_bind in Hf as [Hf | ([] & _ & Hf)].
  { destruct (attributes WLM !! attrName) as [def |].
    - exact (Hassert _ _ Hf).
    - destruct (fails_with_Return _ _ Hf). }
  destruct (isNull value); [destruct (fails_with_Return _ _ Hf) |].
  destruct (attributes WLM !! attrName) as [def |].
  - destruct (truthy (model def)) as [otherModelIdentity |].
    + apply fails_with_bind in Hf as [Hf | (pkType & _ & Hf)].
      * destruct (associatedPkTypeOf_fails _ _ _ Hf) as [-> | ->]; simpl; auto.
      * apply Hcaught in Hf; [exact Hf | reflexivity].
    + apply fails_with_bind in Hf as [Hf | ([] & _ & Hf)]; [exact (Hassert _ _ Hf) |].
      apply Hcaught in Hf; [exact Hf | reflexivity].
  - apply Hcaught in Hf; [exact Hf | reflexivity].
Qed.

End FilterCodes.

(** ** The example ORM: the outcomes at work *)

Lemma refNormalizePkValue_throws (pkValue : Value) (t : option string) (e : JsError) :
  refNormalizePkValue pkValue t = Throw e ->
  code e = Some "E_INVALID_PK_VALUE" \/ code e = None.
Proof.
  unfold refNormalizePkValue.
  destruct (refValidate t pkValue) as [normalized | e'] eqn:Hvalid.
  - destruct normalized; try discriminate.
    destruct (isWholeNumber q); intros He; simplify_eq. left. reflexivity.
  - destruct (has_code "E_INVALID" e') eqn:Hcode; intros He; simplify_eq.
    + left. reflexivity.
    + apply has_code_false in Hcode.
      destruct (refValidate_throws _ _ _ Hvalid) as [Hc | Hc]; [contradiction | auto].
Qed.

Lemma refValidate_never_throws_E_SHOULD_BE_IGNORED (t : option string) (value : Value) :
  neverThrows "E_SHOULD_BE_IGNORED" (refValidate t value).
Proof.
  intros e He Hc. destruct (refValidate_throws _ _ _ He) as [Hc' | Hc']; congruence.
Qed.

Lemma refNormalizePkValue_never_throws_E_SHOULD_BE_IGNORED (pkValue : Value)
  (t : option string) :
  neverThrows "E_SHOULD_BE_IGNORED" (refNormalizePkValue pkValue t).
Proof.
  intros e He Hc. destruct (refNormalizePkValue_throws _ _ _ He) as [Hc' | Hc']; congruence.
Qed.

(** X16, at work: the balance of an account is a number from 0 to 100. *)
Lemma value_set_is_valid_and_violates_no_rule_witness :
  refValidate (Some "number") (VString "50") = Return (VNumber (numberOfZ 50)) /\
  @anchor refAnchor (VNumber (numberOfZ 50))
    [("min", VNumber (numberOfZ 0)); ("max", VNumber (numberOfZ 100))] = Return [].
Proof.
  destruct (@value_set_is_valid_and_violates_no_rule refNode refRttc refAnchor refAttrNames
              refPkValues (VString "50") (VNumber (numberOfZ 50)) "balance" "account"
              accountOrm false Account
              (attrWithRules "number"
                 [("min", VNumber (numberOfZ 0)); ("max", VNumber (numberOfZ 100))]))
    as [Hvalid Hrules].
  - split; [discriminate | reflexivity | reflexivity | left; reflexivity].
  - discriminate.
  - repeat split; reflexivity.
  - reflexivity.
  - split; [exact Hvalid |].
    exact (Hrules _ eq_refl ltac:(discriminate)).
Defined.

(** X17, at work: the singular association [owner]. *)
Lemma allowCollectionAttrs_matters_for_plural_only_witness :
  refNormalizeValueToSet (VString "7") "owner" "pet" exampleOrm true =
  refNormalizeValueToSet (VString "7") "owner" "pet" exampleOrm false.
Proof.
  apply (@allowCollectionAttrs_matters_for_plural_only refNode refRttc refAnchor refAttrNames
           refPkValues (VString "7") "owner" "pet" exampleOrm Pet).
  - reflexivity.
  - right. exists (singular "user" false). split; [reflexivity | right; reflexivity].
Defined.

(** X18, at work: the key [name] of a pet is dropped for [undefined], and
    not for [null], which fails with another code. *)
Lemma should_be_ignored_exactly_when_witness :
  fails_with "E_SHOULD_BE_IGNORED"
    (refNormalizeValueToSet VUndefined "name" "pet" exampleOrm false) /\
  ~ fails_with "E_SHOULD_BE_IGNORED"
      (refNormalizeValueToSet VNull "name" "pet" exampleOrm false).
Proof.
  split.
  - apply (proj2 (@should_be_ignored_exactly_when refNode refRttc refAnchor refAttrNames
                    refPkValues VUndefined "name" "pet" exampleOrm false Pet
                    refValidate_never_throws_E_SHOULD_BE_IGNORED
                    refNormalizePkValue_never_throws_E_SHOULD_BE_IGNORED
                    ltac:(discriminate) eq_refl)).
    right. split; [reflexivity |]. left. split; [reflexivity | eexists; reflexivity].
  - intros Hf.
    apply (proj1 (@should_be_ignored_exactly_when refNode refRttc refAnchor refAttrNames
                    refPkValues VNull "name" "pet" exampleOrm false Pet
                    refValidate_never_throws_E_SHOULD_BE_IGNORED
                    refNormalizePkValue_never_throws_E_SHOULD_BE_IGNORED
                    ltac:(discriminate) eq_refl)) in Hf.
    destruct Hf as [[_ Ha] | [Hu _]]; discriminate.
Defined.

(** X19, at work: the code of the failure for a fractional primary key. *)
Lemma codes_of_normalizeValueToSet_witness :
  In "E_HIGHLY_IRREGULAR"
     [ "E_SHOULD_BE_IGNORED"; "E_HIGHLY_IRREGULAR"; "E_INVALID"; "E_VIOLATES_RULES";
       "ERR_ASSERTION"; "E_MODEL_NOT_REGISTERED"; "E_ATTR_NOT_REGISTERED" ].
Proof.
  apply (@codes_of_normalizeValueToSet refNode refRttc refAnchor refAttrNames refPkValues
           "E_HIGHLY_IRREGULAR" (VNumber (Q2Qc (33 # 10))) "id" "pet" exampleOrm false
           refValidate_throws refNormalizePkValue_throws).
  eexists. split; reflexivity.
Defined.

(** X20, at work: the code of the failure for a filter that is no number. *)
Lemma codes_of_normalizeVsAttribute_witness :
  In "E_VALUE_NOT_USABLE"
     [ "E_VALUE_NOT_USABLE"; "ERR_ASSERTION"; "E_MODEL_NOT_REGISTERED";
       "E_ATTR_NOT_REGISTERED" ].
Proof.
  apply (@codes_of_normalizeVsAttribute refNode refRttc
           "E_VALUE_NOT_USABLE" (VString "abc") "id" "pet" exampleOrm refValidate_throws).
  eexists. split; reflexivity.
Defined.
